(** * WeatherApp: a shallow embedding of [src/components/WeatherApp.tsx]

    The component keeps four pieces of React state ([city], [weather],
    [loading], [error]), starts an asynchronous two-call lookup from the
    button or from the Enter key, and renders three conditional blocks.

    The development has three layers:
    - [JS]: the fragment of the JavaScript value semantics the component
      relies on (property access on parsed JSON, truthiness, [===], [<=],
      [Math.round], [trim], [encodeURIComponent], [toLowerCase]);
    - the component itself: [getWeatherIcon], [fetchWeather] (split at its
      two suspension points), [handleKeyPress], the returned element tree and
      what React makes of its children;
    - an event-driven machine that interleaves user events with the
      completion of pending network calls. *)

From Stdlib Require Import ZArith NArith QArith Qround Lqa Bool List String Ascii Lia.
From Stdlib Require Import DecimalString.
Import ListNotations.

Local Open Scope string_scope.
Local Open Scope bool_scope.

(* ================================================================== *)
(** ** The JavaScript fragment                                          *)
(* ================================================================== *)

Module JS.

(** A Number.  A finite double is represented by the rational it denotes,
    so comparison and [Math.round] are exact; the sign of zero is not
    tracked ([-0 === 0] holds and both print as [0]). *)
Inductive number : Type :=
| NaN
| Infinity (negative : bool)
| Finite (q : Q).

Definition of_Z (z : Z) : number := Finite (inject_Z z).
Definition of_nat (n : nat) : number := of_Z (Z.of_nat n).

(** What [JSON.parse] produces, plus [undefined] for absent properties.
    An object keeps its members in source order. *)
#[warnings="-register-all"]
Inductive jsval : Type :=
| VUndefined
| VNull
| VBool (b : bool)
| VNumber (n : number)
| VString (s : string)
| VArray (elems : list jsval)
| VObject (props : list (string * jsval)).

(** Exceptions: [None] stands for a thrown error (the component only has a
    catch-all handler, so the error value itself is never inspected). *)
Definition throws {A} : option A := None.

Notation "x <- e ;; k" := (match e with Some x => k | None => None end)
  (at level 61, e at next level, right associativity).

(** *** The text of the search field: UTF-16 code units

    The query is whatever the user types, so it is kept as the sequence of
    its 16-bit code units (numbers below 65536).  A string literal stands
    for the units of its characters. *)
Definition text : Type := list N.

Definition utf16 (s : string) : text :=
  map N_of_ascii (list_ascii_of_string s).

Coercion utf16 : string >-> text.

(** White space and line terminators, the characters [trim] strips: TAB,
    LF, VT, FF, CR, SPACE, NO-BREAK SPACE, U+1680, U+2000-U+200A, U+2028,
    U+2029, U+202F, U+205F, U+3000 and U+FEFF. *)
Definition is_whitespace (c : N) : bool :=
  ((9 <=? c) && (c <=? 13) || (c =? 32) || (c =? 160) || (c =? 5760)
   || (8192 <=? c) && (c <=? 8202) || (c =? 8232) || (c =? 8233)
   || (c =? 8239) || (c =? 8287) || (c =? 12288) || (c =? 65279))%N.

Fixpoint trimStart (s : text) : text :=
  match s with
  | [] => []
  | c :: r => if is_whitespace c then trimStart r else s
  end.

Fixpoint trimEnd (s : text) : text :=
  match s with
  | [] => []
  | c :: r =>
      match trimEnd r with
      | [] => if is_whitespace c then [] else [c]
      | r' => c :: r'
      end
  end.

Definition trim (s : text) : text := trimEnd (trimStart s).

(** Truthiness of a string: every string but the empty one. *)
Definition nonempty (s : text) : bool :=
  match s with [] => false | _ :: _ => true end.

(** [encodeURIComponent]: the unreserved characters stay, every other code
    point becomes the percent-escaped bytes of its UTF-8 form, and a
    surrogate without its partner throws a URIError. *)
Definition is_high_surrogate (c : N) : bool := ((55296 <=? c) && (c <=? 56319))%N.
Definition is_low_surrogate (c : N) : bool := ((56320 <=? c) && (c <=? 57343))%N.

Definition unreserved (c : N) : bool :=
  ((65 <=? c) && (c <=? 90) || (97 <=? c) && (c <=? 122)
   || (48 <=? c) && (c <=? 57)
   || (c =? 45) || (c =? 95) || (c =? 46) || (c =? 33) || (c =? 126)
   || (c =? 42) || (c =? 39) || (c =? 40) || (c =? 41))%N.

Definition hex_digit (n : N) : ascii :=
  if (n <? 10)%N then ascii_of_N (48 + n) else ascii_of_N (55 + n).

Definition percent (byte : N) : string :=
  String "%" (String (hex_digit (byte / 16)) (String (hex_digit (byte mod 16)) "")).

Definition utf8 (cp : N) : list N :=
  (if cp <? 128 then [cp]
   else if cp <? 2048 then [192 + cp / 64; 128 + cp mod 64]
   else if cp <? 65536 then
     [224 + cp / 4096; 128 + (cp / 64) mod 64; 128 + cp mod 64]
   else
     [240 + cp / 262144; 128 + (cp / 4096) mod 64;
      128 + (cp / 64) mod 64; 128 + cp mod 64])%N.

Definition encode_code_point (cp : N) : string :=
  if unreserved cp then String (ascii_of_N cp) ""
  else String.concat "" (map percent (utf8 cp)).

Fixpoint encodeURIComponent (s : text) : option string :=
  match s with
  | [] => Some ""
  | c :: r =>
      if is_high_surrogate c then
        match r with
        | d :: r' =>
            if is_low_surrogate d then
              rest <- encodeURIComponent r' ;;
              Some (encode_code_point
                      (65536 + (c - 55296) * 1024 + (d - 56320))%N ++ rest)
            else throws
        | [] => throws
        end
      else if is_low_surrogate c then throws
      else rest <- encodeURIComponent r ;; Some (encode_code_point c ++ rest)
  end.

(** *** Other strings: code units below 256

    The strings inside JSON values, property names and key names are only
    compared with ASCII literals or passed on, and are kept as sequences of
    code units below 256; [toLowerCase] there moves A-Z and the Latin-1
    capitals (U+00C0-U+00DE but the multiplication sign) 32 places up. *)

Definition lower_char (c : ascii) : ascii :=
  let n := nat_of_ascii c in
  if ((65 <=? n) && (n <=? 90) || (192 <=? n) && (n <=? 222) && negb (n =? 215))%nat
  then ascii_of_nat (n + 32)
  else c.

Fixpoint toLowerCase (s : string) : string :=
  match s with
  | EmptyString => EmptyString
  | String c r => String (lower_char c) (toLowerCase r)
  end.

(** *** Numbers *)

Definition number_eq (a b : number) : bool :=
  match a, b with
  | Finite p, Finite q => Qeq_bool p q
  | Infinity s, Infinity t => Bool.eqb s t
  | _, _ => false
  end.

(** [a <= b] on Numbers: false as soon as one side is [NaN]. *)
Definition number_le (a b : number) : bool :=
  match a, b with
  | NaN, _ | _, NaN => false
  | Infinity true, _ => true
  | _, Infinity false => true
  | Infinity false, _ => false
  | _, Infinity true => false
  | Finite p, Finite q => Qle_bool p q
  end.

(** [Math.round] on a Number: nearest integer, ties towards +Infinity. *)
Definition round (n : number) : number :=
  match n with
  | Finite q => of_Z (Qfloor (q + (1 # 2)))
  | _ => n
  end.

(** *** Host conversions

    [StringToNumber] (the numeric-literal grammar, with its rounding) and
    [Number::toString] are the two primitives of the host that the model
    leaves open; every statement below holds for all of them. *)
Record Host : Type := {
  StringToNumber : string -> number;
  NumberToString : number -> string
}.

(** *** Objects *)

(** Own property of a parsed object; of two members with the same name the
    later one wins. *)
Fixpoint own (props : list (string * jsval)) (k : string) : option jsval :=
  match props with
  | [] => None
  | (k', v) :: rest =>
      match own rest k with
      | Some w => Some w
      | None => if k' =? k then Some v else None
      end
  end.

Definition or_undefined (o : option jsval) : jsval :=
  match o with Some v => v | None => VUndefined end.

(** [v.k] for an identifier [k].  The names the component reads are not
    defined on any built-in prototype, so only own properties (and [length]
    of strings and arrays) can answer; reading from [null] or [undefined]
    throws. *)
Definition get (v : jsval) (k : string) : option jsval :=
  match v with
  | VUndefined | VNull => throws
  | VBool _ | VNumber _ => Some VUndefined
  | VString s =>
      Some (if k =? "length" then VNumber (of_nat (String.length s)) else VUndefined)
  | VArray l =>
      Some (if k =? "length" then VNumber (of_nat (List.length l)) else VUndefined)
  | VObject props => Some (or_undefined (own props k))
  end.

(** [v[i]] for a literal index [i]. *)
Definition get_index (v : jsval) (i : nat) : option jsval :=
  match v with
  | VUndefined | VNull => throws
  | VBool _ | VNumber _ => Some VUndefined
  | VString s =>
      Some (match String.get i s with
            | Some c => VString (String c EmptyString)
            | None => VUndefined
            end)
  | VArray l => Some (nth i l VUndefined)
  | VObject props =>
      Some (or_undefined (own props (NilZero.string_of_uint (Nat.to_uint i))))
  end.

Definition ToBoolean (v : jsval) : bool :=
  match v with
  | VUndefined | VNull => false
  | VBool b => b
  | VNumber NaN => false
  | VNumber (Infinity _) => true
  | VNumber (Finite q) => negb (Qeq_bool q 0)
  | VString s => negb (s =? "")
  | VArray _ | VObject _ => true
  end.

(** [v === n] for a Number [n]: no conversion. *)
Definition strict_eq_number (v : jsval) (n : number) : bool :=
  match v with
  | VNumber m => number_eq m n
  | _ => false
  end.

Section Conversions.
Variable host : Host.

(** [ToString].  A parsed object has no callable own property, so an own
    member named [toString] hides [Object.prototype.toString] and the
    conversion throws; an array goes through [join]. *)
Fixpoint ToString (v : jsval) : option string :=
  match v with
  | VUndefined => Some "undefined"
  | VNull => Some "null"
  | VBool b => Some (if b then "true" else "false")
  | VNumber n => Some (NumberToString host n)
  | VString s => Some s
  | VArray l =>
      (fix join (l : list jsval) : option string :=
         match l with
         | [] => Some ""
         | x :: rest =>
             s <- match x with
                  | VUndefined | VNull => Some ""
                  | _ => ToString x
                  end ;;
             match rest with
             | [] => Some s
             | _ => r <- join rest ;; Some (s ++ "," ++ r)
             end
         end) l
  | VObject props =>
      match own props "toString" with
      | Some _ => throws
      | None => Some "[object Object]"
      end
  end.

(** [ToNumber].  On arrays and objects [valueOf] returns the object
    itself, so the primitive is the one [ToString] computes. *)
Definition ToNumber (v : jsval) : option number :=
  match v with
  | VUndefined => Some NaN
  | VNull => Some (of_Z 0)
  | VBool b => Some (of_Z (if b then 1 else 0))
  | VNumber n => Some n
  | VString s => Some (StringToNumber host s)
  | VArray _ | VObject _ => s <- ToString v ;; Some (StringToNumber host s)
  end.

(** [v <= n] for a Number [n]. *)
Definition le (v : jsval) (n : number) : option bool :=
  x <- ToNumber v ;; Some (number_le x n).

Definition Math_round (v : jsval) : option number :=
  x <- ToNumber v ;; Some (round x).

End Conversions.

End JS.

Import JS.

(* ================================================================== *)
(** ** The component                                                    *)
(* ================================================================== *)

(** *** [getWeatherIcon] (lines 15-36) *)

Inductive icon : Type :=
| Sun | Cloud | CloudRain | CloudSnow | CloudLightning | CloudFog.

Record element : Type := { component : icon; className : string }.

Definition getWeatherIcon (condition : string) : element :=
  let iconClass := "w-24 h-24 text-weather-icon drop-shadow-lg" in
  let c := toLowerCase condition in
  if c =? "clear" then
    {| component := Sun; className := iconClass |}
  else if c =? "clouds" then
    {| component := Cloud; className := iconClass |}
  else if (c =? "rain") || (c =? "drizzle") then
    {| component := CloudRain; className := iconClass |}
  else if c =? "snow" then
    {| component := CloudSnow; className := iconClass |}
  else if c =? "thunderstorm" then
    {| component := CloudLightning; className := iconClass |}
  else if (c =? "mist") || (c =? "fog") || (c =? "haze") then
    {| component := CloudFog; className := iconClass |}
  else
    {| component := Sun; className := iconClass |}.

(** *** State (lines 4-13 and 39-42) *)

Module WeatherData.
Record t : Type := {
  city : jsval;
  country : jsval;
  temperature : number;
  feelsLike : number;
  humidity : jsval;
  windSpeed : number;
  condition : string;
  description : string
}.
End WeatherData.

Record State : Type := {
  city : text;
  weather : option WeatherData.t;
  loading : bool;
  error : string
}.

Definition setCity (v : text) (u : State) : State :=
  {| city := v; weather := weather u; loading := loading u; error := error u |}.
Definition setWeather (v : option WeatherData.t) (u : State) : State :=
  {| city := city u; weather := v; loading := loading u; error := error u |}.
Definition setLoading (v : bool) (u : State) : State :=
  {| city := city u; weather := weather u; loading := v; error := error u |}.
Definition setError (v : string) (u : State) : State :=
  {| city := city u; weather := weather u; loading := loading u; error := v |}.

(** *** The network

    A call is identified by its endpoint and the values interpolated into
    its URL.  [await fetch(..)] followed by [await response.json()] ends in
    one of three ways; between the two awaits the component touches no
    state, so they are taken as one suspension. *)
Inductive request : Type :=
| Geocode (name : text)
| Forecast (latitude longitude : jsval).

Inductive fetch_result : Type :=
| NetworkError
| NotJson
| Json (body : jsval).

Definition json (r : fetch_result) : option jsval :=
  match r with
  | Json body => Some body
  | NetworkError | NotJson => throws
  end.

Definition failure_message : string :=
  "Could not find weather for this city. Please try again.".

Section Component.
Variable host : Host.

(** *** [fetchWeather], the code between two suspension points *)

(** Lines 73-94. *)
Definition classify (weatherCode : jsval) : option (string * string) :=
  let condition := "Clear" in
  let description := "Clear sky" in
  if strict_eq_number weatherCode (of_Z 0) then Some ("Clear", "Clear sky")
  else
    c3 <- le host weatherCode (of_Z 3) ;;
    if c3 then Some ("Clouds", "Partly cloudy")
    else
      c49 <- le host weatherCode (of_Z 49) ;;
      if c49 then Some ("Fog", "Foggy")
      else
        c69 <- le host weatherCode (of_Z 69) ;;
        if c69 then Some ("Rain", "Rainy")
        else
          c79 <- le host weatherCode (of_Z 79) ;;
          if c79 then Some ("Snow", "Snowy")
          else
            c99 <- le host weatherCode (of_Z 99) ;;
            if c99 then Some ("Thunderstorm", "Thunderstorm")
            else Some (condition, description).

(** Lines 55-66: from the geocoding body to the forecast call. *)
Definition after_geocode (geoData : jsval) : option (jsval * jsval * request) :=
  results <- get geoData "results" ;;
  if negb (ToBoolean results) then throws
  else
    len <- get results "length" ;;
    if strict_eq_number len (of_Z 0) then throws
    else
      first <- get_index results 0 ;;
      latitude <- get first "latitude" ;;
      longitude <- get first "longitude" ;;
      name <- get first "name" ;;
      country <- get first "country" ;;
      _ <- ToString host latitude ;;
      _ <- ToString host longitude ;;
      Some (name, country, Forecast latitude longitude).

(** Lines 67-105: from the forecast body to the argument of [setWeather]. *)
Definition after_forecast (name country weatherData : jsval)
  : option WeatherData.t :=
  current <- get weatherData "current" ;;
  weatherCode <- get current "weather_code" ;;
  cd <- classify weatherCode ;;
  temperature_2m <- get current "temperature_2m" ;;
  temperature <- Math_round host temperature_2m ;;
  apparent_temperature <- get current "apparent_temperature" ;;
  feelsLike <- Math_round host apparent_temperature ;;
  relative_humidity_2m <- get current "relative_humidity_2m" ;;
  wind_speed_10m <- get current "wind_speed_10m" ;;
  windSpeed <- Math_round host wind_speed_10m ;;
  Some {| WeatherData.city := name;
          WeatherData.country := country;
          WeatherData.temperature := temperature;
          WeatherData.feelsLike := feelsLike;
          WeatherData.humidity := relative_humidity_2m;
          WeatherData.windSpeed := windSpeed;
          WeatherData.condition := fst cd;
          WeatherData.description := snd cd |}.

(** Lines 106-111. *)
Definition on_catch (u : State) : State :=
  setWeather None (setError failure_message u).

Definition on_finally (u : State) : State := setLoading false u.

(** A suspended call of [fetchWeather] with the locals it still needs. *)
Inductive task : Type :=
| AwaitGeocode
| AwaitForecast (name country : jsval).

(** Resuming a suspended call with the result of the call it awaits: the
    new React state and, if it suspends again, the next task and the call
    it has just issued. *)
Definition resume (t : task) (r : fetch_result) (u : State)
  : State * option (task * request) :=
  match t with
  | AwaitGeocode =>
      match (geoData <- json r ;; after_geocode geoData) with
      | Some (name, country, req) => (u, Some (AwaitForecast name country, req))
      | None => (on_finally (on_catch u), None)
      end
  | AwaitForecast name country =>
      match (weatherData <- json r ;; after_forecast name country weatherData) with
      | Some w => (on_finally (setWeather (Some w) u), None)
      | None => (on_finally (on_catch u), None)
      end
  end.

(** *** The running application: React state, suspended lookups, and the
    log of network calls issued so far *)
Record App : Type := {
  ui : State;
  pending : list task;
  calls : list request
}.

(** Lines 44-54: the synchronous prefix of [fetchWeather].  The URL of the
    geocoding call is built inside the [try]: when [encodeURIComponent]
    throws, the call is never made and the handler and the [finally] block
    run before the function returns. *)
Definition fetchWeather (a : App) : App :=
  if negb (nonempty (trim (city (ui a)))) then a
  else
    let u := setError "" (setLoading true (ui a)) in
    match encodeURIComponent (city (ui a)) with
    | Some _ =>
        {| ui := u;
           pending := pending a ++ [AwaitGeocode];
           calls := calls a ++ [Geocode (city (ui a))] |}
    | None =>
        {| ui := on_finally (on_catch u);
           pending := pending a;
           calls := calls a |}
    end.

(** Lines 114-118. *)
Definition handleKeyPress (key : string) (a : App) : App :=
  if key =? "Enter" then fetchWeather a else a.

(** *** The returned element tree (lines 120-205), reduced to what varies

    [WeatherApp] is the tree the function returns.  The values the lookup
    stored sit in it as children exactly as they were stored; whether React
    can put the tree on screen is [painted], below. *)

Record Card : Type := {
  location : jsval * jsval;
  weather_icon : element;
  temperature_text : number;
  description_text : string;
  feels_like_text : number;
  humidity_text : jsval;
  wind_text : number
}.

Record View : Type := {
  input_value : text;
  button_disabled : bool;
  button_label : string;
  error_text : option string;
  weather_card : option Card;
  empty_state : bool
}.

Definition isSome {A} (o : option A) : bool :=
  match o with Some _ => true | None => false end.

Definition WeatherApp (u : State) : View :=
  {| input_value := city u;
     button_disabled := loading u;
     button_label := if loading u then "..." else "Go";
     error_text := if ToBoolean (VString (error u)) then Some (error u) else None;
     weather_card :=
       match weather u with
       | Some w =>
           Some {| location := (WeatherData.city w, WeatherData.country w);
                   weather_icon := getWeatherIcon (WeatherData.condition w);
                   temperature_text := WeatherData.temperature w;
                   description_text := WeatherData.description w;
                   feels_like_text := WeatherData.feelsLike w;
                   humidity_text := WeatherData.humidity w;
                   wind_text := WeatherData.windSpeed w |}
       | None => None
       end;
     empty_state := negb (isSome (weather u)) && negb (loading u) |}.

(** What React makes of the tree.  A child that is a plain object makes
    rendering throw ("Objects are not valid as a React child"); an array
    is rendered element by element; every other value is text or nothing.
    The component has no error boundary, so when rendering throws none of
    its tree is on screen. *)
Fixpoint valid_child (v : jsval) : bool :=
  match v with
  | VObject _ => false
  | VArray elems => forallb valid_child elems
  | _ => true
  end.

(** The children that come from a response body: city and country (line
    155) and humidity (line 180).  The other children are numbers and
    strings the component made itself. *)
Definition stored_children (v : View) : list jsval :=
  match weather_card v with
  | Some c => [fst (location c); snd (location c); humidity_text c]
  | None => []
  end.

Definition painted (u : State) : option View :=
  if forallb valid_child (stored_children (WeatherApp u))
  then Some (WeatherApp u)
  else None.

(** *** Events *)

Inductive event : Type :=
| Change (value : text)
| Click
| KeyPress (key : string)
| Settle (i : nat) (r : fetch_result).

Definition settle (i : nat) (r : fetch_result) (a : App) : App :=
  match nth_error (pending a) i with
  | None => a
  | Some t =>
      match resume t r (ui a) with
      | (u, Some (t', req)) =>
          {| ui := u;
             pending := firstn i (pending a) ++ t' :: skipn (S i) (pending a);
             calls := calls a ++ [req] |}
      | (u, None) =>
          {| ui := u;
             pending := firstn i (pending a) ++ skipn (S i) (pending a);
             calls := calls a |}
      end
  end.

(** One event.  A click reaches [fetchWeather] only when the button is not
    disabled; [Settle i r] completes the call awaited by the [i]-th pending
    lookup and does nothing when there is no such lookup.  The machine
    follows the React state: what becomes of the application after a state
    that cannot be painted is decided where the component is mounted, not
    in this file, so such a state is taken as any other. *)
Definition step (a : App) (e : event) : App :=
  match e with
  | Change v =>
      {| ui := setCity v (ui a); pending := pending a; calls := calls a |}
  | Click =>
      if button_disabled (WeatherApp (ui a)) then a else fetchWeather a
  | KeyPress key => handleKeyPress key a
  | Settle i r => settle i r a
  end.

Definition run (es : list event) (a : App) : App := fold_left step es a.

Definition init : App :=
  {| ui := {| city := ""; weather := None; loading := false; error := "" |};
     pending := [];
     calls := [] |}.

Definition reachable (a : App) : Prop := exists es, run es init = a.

End Component.

(* ================================================================== *)
(** ** Vocabulary of the specification                                  *)
(* ================================================================== *)

(** The table of section 4.1, on mathematical integers: inclusive upper
    bounds tried in order, first match wins. *)
Definition weather_code_table (c : Z) : string * string :=
  if (c =? 0)%Z then ("Clear", "Clear sky")
  else if (c <=? 3)%Z then ("Clouds", "Partly cloudy")
  else if (c <=? 49)%Z then ("Fog", "Foggy")
  else if (c <=? 69)%Z then ("Rain", "Rainy")
  else if (c <=? 79)%Z then ("Snow", "Snowy")
  else if (c <=? 99)%Z then ("Thunderstorm", "Thunderstorm")
  else ("Clear", "Clear sky").

(** "Empty or whitespace-only". *)
Fixpoint whitespace_only (s : text) : bool :=
  match s with
  | [] => true
  | c :: r => is_whitespace c && whitespace_only r
  end.

(** Well-formed UTF-16: every high surrogate is followed by a low one and
    no low surrogate stands alone. *)
Fixpoint well_formed (s : text) : bool :=
  match s with
  | [] => true
  | c :: r =>
      if is_high_surrogate c then
        match r with
        | d :: r' => is_low_surrogate d && well_formed r'
        | [] => false
        end
      else negb (is_low_surrogate c) && well_formed r
  end.

(** The stored values React can render. *)
Definition renderable (u : State) : bool :=
  match weather u with
  | Some w =>
      valid_child (WeatherData.city w) && valid_child (WeatherData.country w)
      && valid_child (WeatherData.humidity w)
  | None => true
  end.

(** The lookup state of section 3, read off the React state: a lookup in
    progress is [Loading]; otherwise a stored result is [Success], a
    displayed message is [Failure], and nothing at all is [Idle]. *)
Inductive LookupState : Type :=
| Idle
| Loading
| Success (w : WeatherData.t)
| Failure (message : string).

Definition lookupState (u : State) : LookupState :=
  if loading u then Loading
  else
    match weather u with
    | Some w => Success w
    | None => if error u =? "" then Idle else Failure (error u)
    end.

(** The three renderings of section 3, on what is painted: nothing is
    shown when rendering threw. *)
Definition shows_empty_state (p : option View) : bool :=
  match p with Some v => empty_state v | None => false end.
Definition shows_loading_indicator (p : option View) : bool :=
  match p with Some v => button_disabled v | None => false end.
Definition shows_weather_card (p : option View) : bool :=
  match p with Some v => isSome (weather_card v) | None => false end.
Definition shows_error (p : option View) : option string :=
  match p with Some v => error_text v | None => None end.

Definition renderings_shown (p : option View) : nat :=
  (if shows_empty_state p then 1 else 0)
  + (if shows_loading_indicator p then 1 else 0)
  + (if shows_weather_card p then 1 else 0).

(** The names [getWeatherIcon] has a case for. *)
Definition recognized_categories : list string :=
  ["clear"; "clouds"; "rain"; "drizzle"; "snow"; "thunderstorm"; "mist"; "fog"; "haze"].

(** At most one lookup is pending, and the loading flag says whether one
    is. *)
Definition single_flight (a : App) : Prop :=
  (pending a = [] /\ loading (ui a) = false) \/
  (exists t, pending a = [t] /\ loading (ui a) = true).

(** A submission: the button or the Enter key. *)
Definition is_submission (e : event) : bool :=
  match e with
  | Click => true
  | KeyPress key => key =? "Enter"
  | _ => false
  end.

Definition is_change (e : event) : bool :=
  match e with Change _ => true | _ => false end.

(** The state every caught error leaves behind. *)
Definition failed (u : State) : State :=
  {| city := city u; weather := None; loading := false; error := failure_message |}.

(** The causes of failure the lookup detects: the call awaited by a task
    ends in one of these ways. *)
Inductive detected_failure : task -> fetch_result -> Prop :=
| network_failure t :
    detected_failure t NetworkError
| body_not_json t :
    detected_failure t NotJson
| body_null t :
    detected_failure t (Json VNull)
| results_missing geoData :
    get geoData "results" = Some VUndefined ->
    detected_failure AwaitGeocode (Json geoData)
| results_null geoData :
    get geoData "results" = Some VNull ->
    detected_failure AwaitGeocode (Json geoData)
| results_empty geoData :
    get geoData "results" = Some (VArray []) ->
    detected_failure AwaitGeocode (Json geoData)
| first_result_null geoData rest :
    get geoData "results" = Some (VArray (VNull :: rest)) ->
    detected_failure AwaitGeocode (Json geoData)
| current_missing name country weatherData :
    get weatherData "current" = Some VUndefined ->
    detected_failure (AwaitForecast name country) (Json weatherData)
| current_null name country weatherData :
    get weatherData "current" = Some VNull ->
    detected_failure (AwaitForecast name country) (Json weatherData).

(** The condition, description and icon that go together: lines 76-94
    against lines 18-32. *)
Definition category_table : list (string * string * icon) :=
  [("Clear", "Clear sky", Sun);
   ("Clouds", "Partly cloudy", Cloud);
   ("Fog", "Foggy", CloudFog);
   ("Rain", "Rainy", CloudRain);
   ("Snow", "Snowy", CloudSnow);
   ("Thunderstorm", "Thunderstorm", CloudLightning)].

(** Values that are not arrays or objects. *)
Definition is_primitive (v : jsval) : bool :=
  match v with
  | VArray _ | VObject _ => false
  | _ => true
  end.

Definition is_nullish (v : jsval) : bool :=
  match v with
  | VUndefined | VNull => true
  | _ => false
  end.

(** Counting calls and pending lookups by kind. *)
Definition count {A} (f : A -> bool) (l : list A) : nat :=
  List.length (filter f l).

Definition is_geocode (q : request) : bool :=
  match q with Geocode _ => true | Forecast _ _ => false end.

Definition is_forecast (q : request) : bool :=
  match q with Geocode _ => false | Forecast _ _ => true end.

Definition awaits_geocode (t : task) : bool :=
  match t with AwaitGeocode => true | AwaitForecast _ _ => false end.

Definition awaits_forecast (t : task) : bool :=
  match t with AwaitGeocode => false | AwaitForecast _ _ => true end.

(** What the message and the loading flag have in common in every state
    the application goes through. *)
Definition message_and_loading_agree (a : App) : Prop :=
  (error (ui a) = "" \/ error (ui a) = failure_message) /\
  (loading (ui a) = true -> error (ui a) = "" /\ pending a <> []).

(** Every call has its place: a pending lookup has issued the calls it is
    waiting for, and a forecast call follows a geocoding call of its own. *)
Definition calls_accounted (a : App) : Prop :=
  (count awaits_geocode (pending a) + count is_forecast (calls a)
   <= count is_geocode (calls a))%nat /\
  (count awaits_forecast (pending a) <= count is_forecast (calls a))%nat.

(** The stored weather carries one of the six classifications. *)
Definition stored_weather_classified (u : State) : Prop :=
  match weather u with
  | Some w =>
      In (WeatherData.condition w, WeatherData.description w,
          component (getWeatherIcon (WeatherData.condition w)))
         category_table
  | None => True
  end.

(** *** Sample inputs *)

(** Runs on bodies that hold no string, array or object where a number is
    read never consult the host conversions; this instance evaluates them. *)
Definition inert_host : Host :=
  {| StringToNumber := fun _ => NaN; NumberToString := fun _ => "" |}.

Definition num (q : Q) : jsval := VNumber (Finite q).

Definition paris_geocoding : jsval :=
  VObject [("results",
            VArray [VObject [("id", num 2988507);
                             ("name", VString "Paris");
                             ("latitude", num (4885341 # 100000));
                             ("longitude", num (23488 # 10000));
                             ("country", VString "France")]])].

(** The forecast of section 8. *)
Definition sample_current : jsval :=
  VObject [("temperature_2m", num (216 # 10));
           ("relative_humidity_2m", num 55);
           ("apparent_temperature", num (194 # 10));
           ("weather_code", num 61);
           ("wind_speed_10m", num (117 # 10))].

Definition sample_forecast : jsval := VObject [("current", sample_current)].

(** The same forecast with each decimal replaced by the binary64 value
    closest to it. *)
Definition sample_forecast_binary64 : jsval :=
  VObject [("current",
            VObject [("temperature_2m", num (6079859496950170 # 281474976710656));
                     ("relative_humidity_2m", num 55);
                     ("apparent_temperature", num (5460614548186726 # 281474976710656));
                     ("weather_code", num 61);
                     ("wind_speed_10m", num (6586514455029350 # 562949953421312))])].

Definition sample_weather : WeatherData.t :=
  {| WeatherData.city := VString "Paris";
     WeatherData.country := VString "France";
     WeatherData.temperature := of_Z 22;
     WeatherData.feelsLike := of_Z 19;
     WeatherData.humidity := num 55;
     WeatherData.windSpeed := of_Z 12;
     WeatherData.condition := "Rain";
     WeatherData.description := "Rainy" |}.

(** A forecast body whose [current] object has none of the five fields. *)
Definition empty_current_forecast : jsval := VObject [("current", VObject [])].

Definition blank_weather : WeatherData.t :=
  {| WeatherData.city := VString "Paris";
     WeatherData.country := VString "France";
     WeatherData.temperature := NaN;
     WeatherData.feelsLike := NaN;
     WeatherData.humidity := VUndefined;
     WeatherData.windSpeed := NaN;
     WeatherData.condition := "Clear";
     WeatherData.description := "Clear sky" |}.

(** Two lookups in flight: "Paris" submitted by the button, "Oslo" by the
    Enter key, both past their geocoding call. *)
Definition oslo_geocoding : jsval :=
  VObject [("results",
            VArray [VObject [("name", VString "Oslo");
                             ("latitude", num (5991273 # 100000));
                             ("longitude", num (1074609 # 100000));
                             ("country", VString "Norway")]])].

Definition two_lookups_in_flight : list event :=
  [Change "Paris"; Click; Change "Oslo"; KeyPress "Enter";
   Settle 0 (Json paris_geocoding); Settle 1 (Json oslo_geocoding)].

(** A tab, a space, a no-break space, an em space and a byte-order mark. *)
Definition blank_query : text := [9; 32; 160; 8195; 65279]%N.

(** "Paris" followed by a high surrogate that has no partner. *)
Definition unpaired_surrogate_query : text := (utf16 "Paris" ++ [55357%N])%list.

(** A geocoding body whose first match has an object for a name. *)
Definition object_name_geocoding : jsval :=
  VObject [("results",
            VArray [VObject [("name", VObject [("en", VString "Paris")]);
                             ("latitude", num (4885341 # 100000));
                             ("longitude", num (23488 # 10000));
                             ("country", VString "France")]])].

Definition successful_lookup : list event :=
  [Change "Paris"; Click; Settle 0 (Json paris_geocoding); Settle 0 (Json sample_forecast)].

(* ================================================================== *)
(** ** Properties                                                       *)
(* ================================================================== *)

Local Open Scope Z_scope.

(** *** Numbers that are integers *)

Lemma number_le_of_Z (a b : Z) : number_le (of_Z a) (of_Z b) = (a <=? b)%Z.
Proof.
  unfold of_Z, number_le, Qle_bool, inject_Z; simpl.
  now rewrite !Z.mul_1_r.
Qed.

Lemma number_eq_of_Z (a b : Z) : number_eq (of_Z a) (of_Z b) = (a =? b)%Z.
Proof.
  unfold of_Z, number_eq, Qeq_bool, inject_Z; simpl.
  now rewrite !Z.mul_1_r.
Qed.

Lemma le_of_Z host (c k : Z) :
  le host (VNumber (of_Z c)) (of_Z k) = Some (c <=? k)%Z.
Proof. unfold le, ToNumber. now rewrite number_le_of_Z. Qed.

Lemma strict_eq_of_Z (c k : Z) :
  strict_eq_number (VNumber (of_Z c)) (of_Z k) = (c =? k)%Z.
Proof. apply number_eq_of_Z. Qed.

(** On an integer code the chain of lines 76-94 never throws and is the
    table, whatever the code. *)
Lemma classify_of_Z host (c : Z) :
  classify host (VNumber (of_Z c)) = Some (weather_code_table c).
Proof.
  unfold classify, weather_code_table.
  rewrite strict_eq_of_Z, !le_of_Z.
  destruct (c =? 0)%Z; [reflexivity|].
  repeat match goal with
         | |- context [(c <=? ?k)%Z] => destruct (c <=? k)%Z; [reflexivity|]
         end.
  reflexivity.
Qed.

(** The table by disjoint ranges. *)
Lemma weather_code_table_ranges (c : Z) :
  (c = 0 -> weather_code_table c = ("Clear", "Clear sky")) /\
  (1 <= c <= 3 -> weather_code_table c = ("Clouds", "Partly cloudy")) /\
  (4 <= c <= 49 -> weather_code_table c = ("Fog", "Foggy")) /\
  (50 <= c <= 69 -> weather_code_table c = ("Rain", "Rainy")) /\
  (70 <= c <= 79 -> weather_code_table c = ("Snow", "Snowy")) /\
  (80 <= c <= 99 -> weather_code_table c = ("Thunderstorm", "Thunderstorm")).
Proof.
  unfold weather_code_table.
  repeat split; intros H;
    repeat match goal with
           | |- context [(c =? ?k)%Z] => destruct (Z.eqb_spec c k); try lia
           | |- context [(c <=? ?k)%Z] => destruct (Z.leb_spec c k); try lia
           end; reflexivity.
Qed.

(** C1. For an integer weather code [c] in 0..99 the classification made
    inside the lookup is exactly the ordered-range table of section 4.1:
    0 is Clear / "Clear sky", 1..3 Clouds / "Partly cloudy", 4..49 Fog /
    "Foggy", 50..69 Rain / "Rainy", 70..79 Snow / "Snowy" and 80..99
    Thunderstorm / "Thunderstorm"; it is a function of [c] alone. *)
Theorem C1_classification_follows_table host (c : Z) :
  (0 <= c <= 99)%Z ->
  classify host (VNumber (of_Z c)) = Some (weather_code_table c) /\
  (c = 0 -> classify host (VNumber (of_Z c)) = Some ("Clear", "Clear sky"))%Z /\
  (1 <= c <= 3 ->
   classify host (VNumber (of_Z c)) = Some ("Clouds", "Partly cloudy"))%Z /\
  (4 <= c <= 49 -> classify host (VNumber (of_Z c)) = Some ("Fog", "Foggy"))%Z /\
  (50 <= c <= 69 -> classify host (VNumber (of_Z c)) = Some ("Rain", "Rainy"))%Z /\
  (70 <= c <= 79 -> classify host (VNumber (of_Z c)) = Some ("Snow", "Snowy"))%Z /\
  (80 <= c <= 99 ->
   classify host (VNumber (of_Z c)) = Some ("Thunderstorm", "Thunderstorm"))%Z.
Proof.
  intros _.
  rewrite classify_of_Z.
  destruct (weather_code_table_ranges c) as (H0 & H3 & H49 & H69 & H79 & H99).
  repeat split; intros Hc; f_equal; auto.
Qed.

(** The codes section 8 lists. *)
Lemma C1_listed_codes :
  classify inert_host (num 0) = Some ("Clear", "Clear sky") /\
  classify inert_host (num 3) = Some ("Clouds", "Partly cloudy") /\
  classify inert_host (num 45) = Some ("Fog", "Foggy") /\
  classify inert_host (num 49) = Some ("Fog", "Foggy") /\
  classify inert_host (num 69) = Some ("Rain", "Rainy") /\
  classify inert_host (num 79) = Some ("Snow", "Snowy") /\
  classify inert_host (num 99) = Some ("Thunderstorm", "Thunderstorm").
Proof.
  pose proof (C1_classification_follows_table inert_host) as T.
  refine (conj _ (conj _ (conj _ (conj _ (conj _ (conj _ _)))))).
  - apply (proj1 (proj2 (T 0%Z ltac:(lia)))); reflexivity.
  - apply (proj1 (proj2 (proj2 (T 3%Z ltac:(lia))))); lia.
  - apply (proj1 (proj2 (proj2 (proj2 (T 45%Z ltac:(lia)))))); lia.
  - apply (proj1 (proj2 (proj2 (proj2 (T 49%Z ltac:(lia)))))); lia.
  - apply (proj1 (proj2 (proj2 (proj2 (proj2 (T 69%Z ltac:(lia))))))); lia.
  - apply (proj1 (proj2 (proj2 (proj2 (proj2 (proj2 (T 79%Z ltac:(lia)))))))); lia.
  - apply (proj2 (proj2 (proj2 (proj2 (proj2 (proj2 (T 99%Z ltac:(lia)))))))); lia.
Defined.

(** A negative code is caught by the [<= 3] branch. *)
Lemma C2_negative_code_is_clouds :
  classify inert_host (num (-1)) = Some ("Clouds", "Partly cloudy").
Proof. reflexivity. Qed.

(** C2, as the code has it. An integer code above 99 matches no branch and
    keeps the initial Clear / "Clear sky"; a negative one satisfies
    [weatherCode <= 3] and is Clouds / "Partly cloudy". *)
Theorem C2_codes_outside_range host (c : Z) :
  (c < 0 \/ 99 < c)%Z ->
  classify host (VNumber (of_Z c)) =
  Some (if (c <? 0)%Z then ("Clouds", "Partly cloudy") else ("Clear", "Clear sky")).
Proof.
  intros Hc.
  rewrite classify_of_Z; unfold weather_code_table.
  destruct (Z.ltb_spec c 0).
  - destruct (Z.eqb_spec c 0); [lia|].
    destruct (Z.leb_spec c 3); [reflexivity|lia].
  - repeat match goal with
           | |- context [(c =? ?k)%Z] => destruct (Z.eqb_spec c k); try lia
           | |- context [(c <=? ?k)%Z] => destruct (Z.leb_spec c k); try lia
           end; reflexivity.
Qed.

Lemma C2_codes_outside_range_witness :
  classify inert_host (num 100) = Some ("Clear", "Clear sky") /\
  classify inert_host (num (-7)) = Some ("Clouds", "Partly cloudy").
Proof.
  split.
  - apply (C2_codes_outside_range inert_host 100%Z); lia.
  - apply (C2_codes_outside_range inert_host (-7)%Z); lia.
Defined.

(** *** Blank queries *)

Lemma trimStart_whitespace_only (s : text) :
  whitespace_only s = true -> trimStart s = [].
Proof.
  induction s as [|c r IH]; simpl; [reflexivity|].
  intros H; apply andb_prop in H as [Hc Hr].
  now rewrite Hc; apply IH.
Qed.

Lemma trimEnd_empty (s : text) :
  trimEnd s = [] -> whitespace_only s = true.
Proof.
  induction s as [|c r IH]; simpl; [reflexivity|].
  destruct (trimEnd r) eqn:E; [|discriminate].
  destruct (is_whitespace c); [|discriminate].
  intros _; now apply IH.
Qed.

Lemma whitespace_only_trimStart (s : text) :
  whitespace_only (trimStart s) = true -> whitespace_only s = true.
Proof.
  induction s as [|c r IH]; simpl; [reflexivity|].
  destruct (is_whitespace c) eqn:Hc; simpl.
  - exact IH.
  - now rewrite Hc.
Qed.

(** [!city.trim()] holds exactly for the blank queries. *)
Lemma trim_blank (s : text) :
  negb (nonempty (trim s)) = whitespace_only s.
Proof.
  destruct (whitespace_only s) eqn:W.
  - unfold trim; now rewrite trimStart_whitespace_only.
  - destruct (trim s) eqn:E; [|reflexivity].
    apply trimEnd_empty, whitespace_only_trimStart in E; congruence.
Qed.

(** [encodeURIComponent] throws exactly on the texts with an unpaired
    surrogate. *)
Lemma encodeURIComponent_throws (s : text) :
  encodeURIComponent s = None <-> well_formed s = false.
Proof.
  assert (G : forall n s, (List.length s <= n)%nat ->
                          (encodeURIComponent s = None <-> well_formed s = false)).
  { clear s; induction n as [|n IH]; intros [|c r] L;
      cbn [encodeURIComponent well_formed List.length] in *;
      try (split; discriminate); try lia.
    destruct (is_high_surrogate c).
    - destruct r as [|d r']; [split; reflexivity|].
      cbn [List.length] in L.
      destruct (is_low_surrogate d); cbn [andb]; [|split; reflexivity].
      assert (L' : (List.length r' <= n)%nat) by lia.
      specialize (IH r' L').
      destruct (encodeURIComponent r'); split; intros H;
        try discriminate; try reflexivity; apply IH in H; try discriminate; exact H.
    - destruct (is_low_surrogate c); cbn [negb andb]; [split; reflexivity|].
      assert (L' : (List.length r <= n)%nat) by lia.
      specialize (IH r L').
      destruct (encodeURIComponent r); split; intros H;
        try discriminate; try reflexivity; apply IH in H; try discriminate; exact H. }
  exact (G (List.length s) s (le_n _)).
Qed.

Lemma utf16_well_formed (s : string) : well_formed (utf16 s) = true.
Proof.
  unfold utf16; induction (list_ascii_of_string s) as [|c r IH]; [reflexivity|].
  cbn [map well_formed].
  assert (B : (N_of_ascii c < 256)%N) by apply N_ascii_bounded.
  assert (H : is_high_surrogate (N_of_ascii c) = false).
  { unfold is_high_surrogate; apply andb_false_iff; left; apply N.leb_gt; lia. }
  assert (Lo : is_low_surrogate (N_of_ascii c) = false).
  { unfold is_low_surrogate; apply andb_false_iff; left; apply N.leb_gt; lia. }
  now rewrite H, Lo, IH.
Qed.

Lemma fetchWeather_blank (a : App) :
  whitespace_only (city (ui a)) = true -> fetchWeather a = a.
Proof. intros W; unfold fetchWeather; now rewrite trim_blank, W. Qed.

Lemma fetchWeather_starts (a : App) :
  whitespace_only (city (ui a)) = false ->
  well_formed (city (ui a)) = true ->
  fetchWeather a =
  {| ui := setError "" (setLoading true (ui a));
     pending := pending a ++ [AwaitGeocode];
     calls := calls a ++ [Geocode (city (ui a))] |}.
Proof.
  intros W F; unfold fetchWeather; rewrite trim_blank, W.
  destruct (encodeURIComponent (city (ui a))) eqn:E; [reflexivity|].
  apply encodeURIComponent_throws in E; congruence.
Qed.

Lemma fetchWeather_throws (a : App) :
  whitespace_only (city (ui a)) = false ->
  well_formed (city (ui a)) = false ->
  fetchWeather a =
  {| ui := {| city := city (ui a); weather := None; loading := false;
              error := failure_message |};
     pending := pending a;
     calls := calls a |}.
Proof.
  intros W F; unfold fetchWeather; rewrite trim_blank, W.
  apply encodeURIComponent_throws in F; now rewrite F.
Qed.

(** The three ways the synchronous prefix can go. *)
Lemma fetchWeather_cases (a : App) :
  fetchWeather a = a \/
  fetchWeather a =
    {| ui := {| city := city (ui a); weather := None; loading := false;
                error := failure_message |};
       pending := pending a;
       calls := calls a |} \/
  fetchWeather a =
    {| ui := setError "" (setLoading true (ui a));
       pending := pending a ++ [AwaitGeocode];
       calls := calls a ++ [Geocode (city (ui a))] |}.
Proof.
  destruct (whitespace_only (city (ui a))) eqn:W;
    [left; now apply fetchWeather_blank|right].
  destruct (well_formed (city (ui a))) eqn:F.
  - right; now apply fetchWeather_starts.
  - left; now apply fetchWeather_throws.
Qed.

(** C6. With a query that is empty or made of whitespace only, a
    submission (button or Enter key) issues no network call and leaves the
    whole application state as it was: React state, pending lookups and the
    log of calls. *)
Theorem C6_blank_query_is_ignored host (a : App) (e : event) :
  whitespace_only (city (ui a)) = true ->
  is_submission e = true ->
  step host a e = a /\ calls (step host a e) = calls a.
Proof.
  intros W S.
  assert (E : step host a e = a).
  { destruct e as [v| |key|i r]; simpl in S; try discriminate; simpl.
    - destruct (loading (ui a)); [reflexivity|now apply fetchWeather_blank].
    - unfold handleKeyPress; rewrite S; now apply fetchWeather_blank. }
  now rewrite E.
Qed.

Lemma C6_blank_query_is_ignored_witness :
  let a := step inert_host (run inert_host successful_lookup init) (Change blank_query) in
  (step inert_host a Click = a /\ calls (step inert_host a Click) = calls a) /\
  (step inert_host a (KeyPress "Enter") = a /\
   calls (step inert_host a (KeyPress "Enter")) = calls a).
Proof.
  split.
  - apply (C6_blank_query_is_ignored inert_host); reflexivity.
  - apply (C6_blank_query_is_ignored inert_host); reflexivity.
Defined.

(** *** The query text *)

Lemma resume_city (t : task) (r : fetch_result) (u : State) :
  forall host, city (fst (resume host t r u)) = city u.
Proof.
  intros host; destruct t; simpl.
  - destruct (geoData <- json r ;; after_geocode host geoData) as [[[? ?] ?]|];
      reflexivity.
  - destruct (weatherData <- json r ;; after_forecast host name country weatherData);
      reflexivity.
Qed.

Lemma settle_city host (i : nat) (r : fetch_result) (a : App) :
  city (ui (settle host i r a)) = city (ui a).
Proof.
  unfold settle.
  destruct (nth_error (pending a) i) as [t|]; [|reflexivity].
  pose proof (resume_city t r (ui a) host) as H.
  destruct (resume host t r (ui a)) as [u [[t' req]|]]; exact H.
Qed.

Lemma fetchWeather_city (a : App) : city (ui (fetchWeather a)) = city (ui a).
Proof.
  destruct (fetchWeather_cases a) as [E|[E|E]]; now rewrite E.
Qed.

Lemma step_city host (a : App) (e : event) :
  is_change e = false -> city (ui (step host a e)) = city (ui a).
Proof.
  destruct e as [v| |key|i r]; simpl; intros H; try discriminate.
  - destruct (loading (ui a)); [reflexivity|apply fetchWeather_city].
  - unfold handleKeyPress; destruct (key =? "Enter")%string;
      [apply fetchWeather_city|reflexivity].
  - apply settle_city.
Qed.

(** C9. No part of a lookup writes the query text: over any sequence of
    events that contains no [Change] (submissions, blank or not, and the
    completion of either call with any result) the stored [city] is the one
    it started with; a [Change] stores exactly the text typed. *)
Theorem C9_lookup_keeps_query host (es : list event) (a : App) :
  forallb (fun e => negb (is_change e)) es = true ->
  city (ui (run host es a)) = city (ui a) /\
  forall v, city (ui (step host (run host es a) (Change v))) = v.
Proof.
  intros H; split; [|reflexivity].
  revert a; induction es as [|e es IH]; intros a; [reflexivity|].
  simpl in H; apply andb_prop in H as [He Hes].
  simpl; rewrite (IH Hes).
  apply step_city; now destruct (is_change e).
Qed.

Lemma C9_lookup_keeps_query_witness :
  let a := step inert_host init (Change "Paris") in
  let es := [Click; KeyPress "Enter"; Settle 0 (Json paris_geocoding);
             Settle 1 NetworkError; Settle 0 (Json sample_forecast)] in
  city (ui (run inert_host es a)) = "Paris" /\
  forall v, city (ui (step inert_host (run inert_host es a) (Change v))) = v.
Proof.
  apply (C9_lookup_keeps_query inert_host); reflexivity.
Defined.

(** *** Icons *)

Lemma lower_char_idempotent (c : ascii) : lower_char (lower_char c) = lower_char c.
Proof. destruct c as [[] [] [] [] [] [] [] []]; reflexivity. Qed.

Lemma toLowerCase_idempotent (s : string) :
  toLowerCase (toLowerCase s) = toLowerCase s.
Proof.
  induction s as [|c r IH]; simpl; [reflexivity|].
  now rewrite lower_char_idempotent, IH.
Qed.

Lemma getWeatherIcon_className (s : string) :
  className (getWeatherIcon s) = "w-24 h-24 text-weather-icon drop-shadow-lg".
Proof.
  unfold getWeatherIcon.
  repeat match goal with
         | |- context [if ?b then _ else _] => destruct b
         end; reflexivity.
Qed.

Lemma getWeatherIcon_default (s : string) :
  ~ In (toLowerCase s) recognized_categories ->
  getWeatherIcon s = getWeatherIcon "Clear".
Proof.
  intros H; unfold getWeatherIcon at 1.
  assert (N : forall k, In k recognized_categories ->
                        (toLowerCase s =? k)%string = false).
  { intros k Hk; apply String.eqb_neq; intros E; apply H; now rewrite E. }
  rewrite !N by (simpl; tauto).
  reflexivity.
Qed.

(** C10. [getWeatherIcon] is defined on every string and looks only at the
    lower-cased argument.  Whatever the letter case, "clear" gives Sun,
    "clouds" Cloud, "rain" and "drizzle" CloudRain, "snow" CloudSnow,
    "thunderstorm" CloudLightning, "mist", "fog" and "haze" CloudFog; every
    other string gives the default, which is the very element "Clear"
    gives. *)
Theorem C10_icon_selection (s : string) :
  getWeatherIcon s = getWeatherIcon (toLowerCase s) /\
  (forall t, toLowerCase t = toLowerCase s -> getWeatherIcon t = getWeatherIcon s) /\
  (toLowerCase s = "clear" -> component (getWeatherIcon s) = Sun) /\
  (toLowerCase s = "clouds" -> component (getWeatherIcon s) = Cloud) /\
  (toLowerCase s = "rain" \/ toLowerCase s = "drizzle" ->
   component (getWeatherIcon s) = CloudRain) /\
  (toLowerCase s = "snow" -> component (getWeatherIcon s) = CloudSnow) /\
  (toLowerCase s = "thunderstorm" ->
   component (getWeatherIcon s) = CloudLightning) /\
  (toLowerCase s = "mist" \/ toLowerCase s = "fog" \/ toLowerCase s = "haze" ->
   component (getWeatherIcon s) = CloudFog) /\
  (~ In (toLowerCase s) recognized_categories ->
   getWeatherIcon s = getWeatherIcon "Clear" /\
   component (getWeatherIcon s) = Sun).
Proof.
  refine (conj _ (conj _ (conj _ (conj _ (conj _ (conj _ (conj _ (conj _ _)))))))).
  - unfold getWeatherIcon; now rewrite toLowerCase_idempotent.
  - intros t E; unfold getWeatherIcon; now rewrite E.
  - intros E; unfold getWeatherIcon; now rewrite E.
  - intros E; unfold getWeatherIcon; now rewrite E.
  - intros [E|E]; unfold getWeatherIcon; now rewrite E.
  - intros E; unfold getWeatherIcon; now rewrite E.
  - intros E; unfold getWeatherIcon; now rewrite E.
  - intros [E|[E|E]]; unfold getWeatherIcon; now rewrite E.
  - intros H; apply getWeatherIcon_default in H.
    split; [exact H|now rewrite H].
Qed.

(** The six categories the lookup produces, in three spellings each, the
    three extra names, and two unknown ones. *)
Lemma C10_icon_selection_witness :
  (component (getWeatherIcon "Clear") = Sun /\
   component (getWeatherIcon "CLOUDS") = Cloud /\
   component (getWeatherIcon "rAiN") = CloudRain /\
   component (getWeatherIcon "Drizzle") = CloudRain /\
   component (getWeatherIcon "Snow") = CloudSnow /\
   component (getWeatherIcon "ThunderStorm") = CloudLightning /\
   component (getWeatherIcon "Fog") = CloudFog /\
   component (getWeatherIcon "MIST") = CloudFog /\
   component (getWeatherIcon "haze") = CloudFog) /\
  getWeatherIcon "Tornado" = getWeatherIcon "Clear" /\
  getWeatherIcon "" = getWeatherIcon "Clear" /\
  getWeatherIcon "FOG" = getWeatherIcon "Fog".
Proof.
  assert (D : forall s, negb (existsb (String.eqb (toLowerCase s)) recognized_categories) = true ->
                        ~ In (toLowerCase s) recognized_categories).
  { intros s H I. apply negb_true_iff in H.
    assert (X : existsb (String.eqb (toLowerCase s)) recognized_categories = true).
    { apply existsb_exists; exists (toLowerCase s); split;
        [exact I|apply String.eqb_refl]. }
    congruence. }
  refine (conj (conj _ (conj _ (conj _ (conj _ (conj _ (conj _ (conj _ (conj _ _))))))))
               (conj _ (conj _ _))).
  - apply (proj1 (proj2 (proj2 (C10_icon_selection "Clear")))); reflexivity.
  - apply (proj1 (proj2 (proj2 (proj2 (C10_icon_selection "CLOUDS"))))); reflexivity.
  - apply (proj1 (proj2 (proj2 (proj2 (proj2 (C10_icon_selection "rAiN")))))).
    left; reflexivity.
  - apply (proj1 (proj2 (proj2 (proj2 (proj2 (C10_icon_selection "Drizzle")))))).
    right; reflexivity.
  - apply (proj1 (proj2 (proj2 (proj2 (proj2 (proj2 (C10_icon_selection "Snow"))))))).
    reflexivity.
  - apply (proj1 (proj2 (proj2 (proj2 (proj2 (proj2 (proj2
             (C10_icon_selection "ThunderStorm")))))))); reflexivity.
  - apply (proj1 (proj2 (proj2 (proj2 (proj2 (proj2 (proj2 (proj2
             (C10_icon_selection "Fog"))))))))); right; left; reflexivity.
  - apply (proj1 (proj2 (proj2 (proj2 (proj2 (proj2 (proj2 (proj2
             (C10_icon_selection "MIST"))))))))); left; reflexivity.
  - apply (proj1 (proj2 (proj2 (proj2 (proj2 (proj2 (proj2 (proj2
             (C10_icon_selection "haze"))))))))); right; right; reflexivity.
  - apply (proj2 (proj2 (proj2 (proj2 (proj2 (proj2 (proj2 (proj2
             (C10_icon_selection "Tornado"))))))))); apply D; reflexivity.
  - apply (proj2 (proj2 (proj2 (proj2 (proj2 (proj2 (proj2 (proj2
             (C10_icon_selection ""))))))))); apply D; reflexivity.
  - apply (proj1 (proj2 (C10_icon_selection "Fog"))); reflexivity.
Defined.

(** *** Completion of a pending call *)

Lemma settle_at host (i : nat) (r : fetch_result) (a : App) (t : task) :
  nth_error (pending a) i = Some t ->
  settle host i r a =
  match resume host t r (ui a) with
  | (u, Some (t', req)) =>
      {| ui := u;
         pending := firstn i (pending a) ++ t' :: skipn (S i) (pending a);
         calls := calls a ++ [req] |}
  | (u, None) =>
      {| ui := u;
         pending := firstn i (pending a) ++ skipn (S i) (pending a);
         calls := calls a |}
  end.
Proof. intros H; unfold settle; now rewrite H. Qed.

Lemma nth_error_last {A} (l : list A) (x : A) :
  nth_error (l ++ [x]) (List.length l) = Some x.
Proof. induction l; simpl; auto. Qed.

Lemma firstn_last {A} (l : list A) (x : A) :
  firstn (List.length l) (l ++ [x]) = l.
Proof. induction l; simpl; congruence. Qed.

Lemma skipn_last {A} (l : list A) (x : A) :
  skipn (S (List.length l)) (l ++ [x]) = [].
Proof. induction l; simpl; auto. Qed.

(** When the geocoding body passes, the call issued next is the forecast
    call for the coordinates of the first result. *)
Lemma after_geocode_request host (geoData name country : jsval) (req : request) :
  after_geocode host geoData = Some (name, country, req) ->
  exists results first latitude longitude,
    get geoData "results" = Some results /\
    get_index results 0 = Some first /\
    get first "latitude" = Some latitude /\
    get first "longitude" = Some longitude /\
    get first "name" = Some name /\
    get first "country" = Some country /\
    req = Forecast latitude longitude.
Proof.
  unfold after_geocode; intros G.
  destruct (get geoData "results") as [results|]; [|discriminate].
  destruct (negb (ToBoolean results)); [discriminate|].
  destruct (get results "length") as [len|]; [|discriminate].
  destruct (strict_eq_number len (of_Z 0)); [discriminate|].
  destruct (get_index results 0) as [first|] eqn:E0; [|discriminate].
  destruct (get first "latitude") as [latitude|] eqn:E1; [|discriminate].
  destruct (get first "longitude") as [longitude|] eqn:E2; [|discriminate].
  destruct (get first "name") as [n|] eqn:E3; [|discriminate].
  destruct (get first "country") as [c|] eqn:E4; [|discriminate].
  destruct (ToString host latitude); [|discriminate].
  destruct (ToString host longitude); [|discriminate].
  injection G as <- <- <-.
  exists results, first, latitude, longitude; auto 10.
Qed.

(** Every completion of a pending call either finishes the lookup, with
    the loading flag cleared, or leaves the React state alone. *)
Lemma resume_outcome host (t : task) (r : fetch_result) (u : State) :
  (resume host t r u = (failed u, None)) \/
  (exists w, resume host t r u = (on_finally (setWeather (Some w) u), None)) \/
  (exists name country req,
     t = AwaitGeocode /\
     resume host t r u = (u, Some (AwaitForecast name country, req))).
Proof.
  destruct t; simpl.
  - destruct (geoData <- json r ;; after_geocode host geoData) as [[[n c] q]|].
    + right; right; now exists n, c, q.
    + now left.
  - destruct (weatherData <- json r ;; after_forecast host name country weatherData)
      as [w|].
    + right; left; now exists w.
    + now left.
Qed.

Lemma resume_forecast_outcome host (name country : jsval) (r : fetch_result) (u : State) :
  (resume host (AwaitForecast name country) r u = (failed u, None)) \/
  (exists w, resume host (AwaitForecast name country) r u =
             (on_finally (setWeather (Some w) u), None)).
Proof.
  destruct (resume_outcome host (AwaitForecast name country) r u)
    as [H|[H|(n & c & q & H & _)]]; auto; discriminate.
Qed.

(** Each detected cause makes the resumed code throw, and the handler
    leaves the same state whatever was thrown. *)
Lemma detected_failure_resume host (t : task) (r : fetch_result) (u : State) :
  detected_failure t r -> resume host t r u = (failed u, None).
Proof.
  intros D; destruct D as
    [t|t|t|geoData H|geoData H|geoData H|geoData rest H
     |name country weatherData H|name country weatherData H];
    try (destruct t; reflexivity);
    unfold resume, json, after_geocode, after_forecast; rewrite H;
    reflexivity.
Qed.

Lemma lookupState_failed (u : State) :
  lookupState (failed u) = Failure failure_message.
Proof. reflexivity. Qed.

(** A malformed forecast body that is not detected: the [current] object
    has no field at all, and the lookup ends in Success. *)
Lemma C7_empty_current_is_success :
  lookupState
    (ui (run inert_host
           [Change "Paris"; Click;
            Settle 0 (Json paris_geocoding);
            Settle 0 (Json empty_current_forecast)] init)) =
  Success blank_weather.
Proof. reflexivity. Qed.

(** C7, as the code has it. A network failure or a body that is not JSON at
    either call, a null body, a geocoding body whose [results] is absent,
    null or empty or whose first result is null, and a forecast body whose
    [current] is absent or null all end the lookup in one and the same
    state: no stored weather, not loading, and the fixed message; no further
    call is issued and the lookup is no longer pending.  Whatever a call
    returns, its completion leaves that same failure state, or stores a
    weather, or (after the geocoding call) leaves the state alone and issues
    the forecast call: a failure never shows its cause. *)
Theorem C7_detected_failures_collapse host (a : App) (i : nat)
    (t : task) (r : fetch_result) :
  nth_error (pending a) i = Some t ->
  (detected_failure t r ->
   ui (step host a (Settle i r)) = failed (ui a) /\
   lookupState (ui (step host a (Settle i r))) = Failure failure_message /\
   calls (step host a (Settle i r)) = calls a /\
   pending (step host a (Settle i r)) =
     (firstn i (pending a) ++ skipn (S i) (pending a))%list) /\
  (ui (step host a (Settle i r)) = failed (ui a) \/
   (exists w, ui (step host a (Settle i r)) =
              {| city := city (ui a); weather := Some w;
                 loading := false; error := error (ui a) |}) \/
   (t = AwaitGeocode /\
    ui (step host a (Settle i r)) = ui a /\
    exists latitude longitude,
      calls (step host a (Settle i r)) =
      (calls a ++ [Forecast latitude longitude])%list)).
Proof.
  intros Hn; cbn [step]; rewrite (settle_at host i r a t Hn); split.
  - intros D; rewrite (detected_failure_resume host t r _ D).
    repeat split.
  - destruct (resume_outcome host t r (ui a))
      as [R|[(w & R)|(name & country & req & Ht & R)]]; rewrite R.
    + now left.
    + right; left; now exists w.
    + right; right. split; [exact Ht|]. split; [reflexivity|].
      subst t; simpl in R.
      destruct (json r) as [geoData|]; [|discriminate].
      destruct (after_geocode host geoData) as [[[n c] q]|] eqn:G; [|discriminate].
      injection R as _ _ <-.
      apply after_geocode_request in G
        as (_ & _ & latitude & longitude & _ & _ & _ & _ & _ & _ & ->).
      now exists latitude, longitude.
Qed.

Lemma C7_detected_failures_collapse_witness :
  let a := run inert_host [Change "Atlantis"; Click] init in
  let no_match := Json (VObject [("generationtime_ms", num (5 # 10))]) in
  ui (step inert_host a (Settle 0 no_match)) = failed (ui a) /\
  lookupState (ui (step inert_host a (Settle 0 no_match))) = Failure failure_message /\
  calls (step inert_host a (Settle 0 no_match)) = calls a /\
  pending (step inert_host a (Settle 0 no_match)) = [].
Proof.
  intros a no_match.
  exact (proj1 (C7_detected_failures_collapse inert_host a 0%nat AwaitGeocode no_match
                  eq_refl)
           (results_missing (VObject [("generationtime_ms", num (5 # 10))]) eq_refl)).
Defined.

(** *** Normalization of a forecast *)

(** [Math.round] picks the integer at distance at most one half, the upper
    one in a tie. *)
Lemma round_nearest (q : Q) :
  (inject_Z (Qfloor (q + (1 # 2))) - (1 # 2) <= q
   /\ q < inject_Z (Qfloor (q + (1 # 2))) + (1 # 2))%Q.
Proof.
  pose proof (Qfloor_le (q + (1 # 2))) as L.
  pose proof (Qlt_floor (q + (1 # 2))) as U.
  rewrite inject_Z_plus in U.
  change (inject_Z 1) with 1%Q in U.
  split; lra.
Qed.

Lemma Math_round_finite host (q : Q) :
  Math_round host (num q) = Some (of_Z (Qfloor (q + (1 # 2)))).
Proof. reflexivity. Qed.

(** C5. When the forecast call of a pending lookup returns a body whose
    [current] object holds finite numbers [t], [f], [w] for temperature,
    apparent temperature and wind speed, any value [h] for humidity and a
    weather code classified as [(cond, desc)], the lookup stores the
    resolved name and country, the integers nearest to [t], [f] and [w]
    (the upper one in a tie), [h] itself, and [cond] and [desc]; and it
    stops loading. *)
Theorem C5_normalized_weather host (a : App) (i : nat)
    (name country weatherData current h code : jsval) (t f w : Q)
    (cond desc : string) :
  nth_error (pending a) i = Some (AwaitForecast name country) ->
  get weatherData "current" = Some current ->
  get current "temperature_2m" = Some (num t) ->
  get current "apparent_temperature" = Some (num f) ->
  get current "relative_humidity_2m" = Some h ->
  get current "wind_speed_10m" = Some (num w) ->
  get current "weather_code" = Some code ->
  classify host code = Some (cond, desc) ->
  exists T F W : Z,
    (inject_Z T - (1 # 2) <= t /\ t < inject_Z T + (1 # 2))%Q /\
    (inject_Z F - (1 # 2) <= f /\ f < inject_Z F + (1 # 2))%Q /\
    (inject_Z W - (1 # 2) <= w /\ w < inject_Z W + (1 # 2))%Q /\
    weather (ui (step host a (Settle i (Json weatherData)))) =
      Some {| WeatherData.city := name;
              WeatherData.country := country;
              WeatherData.temperature := of_Z T;
              WeatherData.feelsLike := of_Z F;
              WeatherData.humidity := h;
              WeatherData.windSpeed := of_Z W;
              WeatherData.condition := cond;
              WeatherData.description := desc |} /\
    loading (ui (step host a (Settle i (Json weatherData)))) = false.
Proof.
  intros Hn Hcur Ht Hf Hh Hw Hcode Hcls.
  exists (Qfloor (t + (1 # 2))), (Qfloor (f + (1 # 2))), (Qfloor (w + (1 # 2))).
  split; [apply round_nearest|].
  split; [apply round_nearest|].
  split; [apply round_nearest|].
  cbn [step]; rewrite (settle_at host i _ a _ Hn).
  unfold resume, json, after_forecast.
  rewrite Hcur, Hcode, Hcls, Ht, Hf, Hh, Hw, !Math_round_finite.
  split; reflexivity.
Qed.

(** The forecast of section 8, arriving for a lookup of "Paris". *)
Lemma C5_normalized_weather_witness :
  let a := run inert_host [Change "Paris"; Click; Settle 0 (Json paris_geocoding)] init in
  weather (ui (step inert_host a (Settle 0 (Json sample_forecast)))) = Some sample_weather.
Proof.
  intros a.
  destruct (C5_normalized_weather inert_host a 0%nat
              (VString "Paris") (VString "France") sample_forecast sample_current
              (num 55) (num 61) (216 # 10) (194 # 10) (117 # 10) "Rain" "Rainy"
              eq_refl eq_refl eq_refl eq_refl eq_refl eq_refl eq_refl eq_refl)
    as (T & F & W & [T1 T2] & [F1 F2] & [W1 W2] & E & _).
  rewrite E; unfold sample_weather.
  unfold Qle, Qlt in *; cbn in *.
  assert (T = 22) as -> by lia.
  assert (F = 19) as -> by lia.
  assert (W = 12) as -> by lia.
  reflexivity.
Defined.

(** The whole chain from the initial state, with the decimals of section 8
    and with the doubles a parser makes of them. *)
Example sample_lookup_stores_sample_weather :
  ui (run inert_host successful_lookup init) =
  {| city := "Paris"; weather := Some sample_weather; loading := false; error := "" |} /\
  weather (ui (run inert_host
                 [Change "Paris"; Click; Settle 0 (Json paris_geocoding);
                  Settle 0 (Json sample_forecast_binary64)] init)) =
  Some sample_weather.
Proof. split; reflexivity. Qed.

(** *** Submissions *)

Lemma lookupState_Failure_inv (u : State) (m : string) :
  lookupState u = Failure m ->
  loading u = false /\ weather u = None /\ error u = m.
Proof.
  unfold lookupState.
  destruct (loading u); [discriminate|].
  destruct (weather u); [discriminate|].
  destruct (error u =? "")%string; [discriminate|].
  intros [= <-]; auto.
Qed.

Lemma submission_step host (a : App) (e : event) :
  is_submission e = true ->
  loading (ui a) = false ->
  step host a e = fetchWeather a.
Proof.
  destruct e as [v| |key|i r]; simpl; intros S L; try discriminate.
  - now rewrite L.
  - unfold handleKeyPress; now rewrite S.
Qed.

(** A non-blank query with a surrogate that has no partner: the
    submission issues no call and the state is Failure again at once, with
    the message still on screen. *)
Lemma C8_unpaired_surrogate_fails_at_once :
  let a := run inert_host [Change "Atlantis"; Click; Settle 0 NetworkError;
                           Change unpaired_surrogate_query] init in
  lookupState (ui a) = Failure failure_message /\
  whitespace_only (city (ui a)) = false /\
  lookupState (ui (step inert_host a Click)) = Failure failure_message /\
  error (ui (step inert_host a Click)) = failure_message /\
  pending (step inert_host a Click) = [] /\
  calls (step inert_host a Click) = calls a.
Proof. repeat split. Qed.

(** C8, as the code has it. From a state left by a failed lookup, a
    submission with a non-blank query that is well-formed UTF-16 clears the
    message, sets the loading flag and issues the geocoding call; whatever
    the two calls then return, the lookup completes after the first or the
    second of them, the loading flag is cleared at that point, and the
    state is then either Success with no message or Failure with the fixed
    message.  With a non-blank query that holds an unpaired surrogate the
    URL cannot be built: no call is issued and the submission itself ends
    in Failure with the fixed message and the loading flag clear. *)
Theorem C8_resubmission_after_failure host (a : App) (e : event) (m : string) :
  lookupState (ui a) = Failure m ->
  whitespace_only (city (ui a)) = false ->
  is_submission e = true ->
  let n := List.length (pending a) in
  let a1 := step host a e in
  (well_formed (city (ui a)) = false ->
   a1 = {| ui := failed (ui a); pending := pending a; calls := calls a |} /\
   lookupState (ui a1) = Failure failure_message) /\
  (well_formed (city (ui a)) = true ->
   (error (ui a1) = "" /\
    lookupState (ui a1) = Loading /\
    pending a1 = (pending a ++ [AwaitGeocode])%list /\
    calls a1 = (calls a ++ [Geocode (city (ui a))])%list) /\
   forall r1,
     let a2 := step host a1 (Settle n r1) in
     (pending a2 = pending a /\
      ui a2 = failed (ui a) /\
      lookupState (ui a2) = Failure failure_message) \/
     (exists name country,
        pending a2 = (pending a ++ [AwaitForecast name country])%list /\
        ui a2 = ui a1 /\
        forall r2,
          let a3 := step host a2 (Settle n r2) in
          pending a3 = pending a /\
          loading (ui a3) = false /\
          ((exists w,
              ui a3 = {| city := city (ui a); weather := Some w;
                         loading := false; error := "" |} /\
              lookupState (ui a3) = Success w) \/
           (ui a3 = failed (ui a) /\
            lookupState (ui a3) = Failure failure_message)))).
Proof.
  intros HF W S n a1.
  apply lookupState_Failure_inv in HF as (L & _ & _).
  split; intros F.
  { unfold a1; rewrite (submission_step host a e S L), (fetchWeather_throws a W F).
    split; reflexivity. }
  assert (E1 : a1 = {| ui := setError "" (setLoading true (ui a));
                       pending := pending a ++ [AwaitGeocode];
                       calls := calls a ++ [Geocode (city (ui a))] |}).
  { unfold a1; rewrite (submission_step host a e S L).
    now apply fetchWeather_starts. }
  clearbody a1; subst a1 n.
  split; [repeat split|].
  intros r1 a2.
  assert (E2 : a2 = settle host (List.length (pending a)) r1
                      {| ui := setError "" (setLoading true (ui a));
                         pending := pending a ++ [AwaitGeocode];
                         calls := calls a ++ [Geocode (city (ui a))] |})
    by reflexivity.
  clearbody a2.
  rewrite (settle_at host _ r1 _ AwaitGeocode) in E2 by apply nth_error_last.
  cbn [pending ui calls] in E2.
  rewrite firstn_last, skipn_last in E2.
  destruct (resume_outcome host AwaitGeocode r1 (setError "" (setLoading true (ui a))))
    as [R|[(w & R)|(name & country & req & _ & R)]].
  - left; rewrite R in E2; subst a2; cbn [pending ui].
    rewrite app_nil_r. repeat split.
  - exfalso. simpl in R.
    destruct (geoData <- json r1 ;; after_geocode host geoData) as [[[? ?] ?]|];
      discriminate.
  - right; exists name, country.
    rewrite R in E2; subst a2.
    split; [reflexivity|]. split; [reflexivity|].
    intros r2 a3.
    assert (E3 : a3 = settle host (List.length (pending a)) r2
                        {| ui := setError "" (setLoading true (ui a));
                           pending := pending a ++ [AwaitForecast name country];
                           calls := (calls a ++ [Geocode (city (ui a))]) ++ [req] |})
      by reflexivity.
    clearbody a3.
    rewrite (settle_at host _ r2 _ (AwaitForecast name country)) in E3
      by apply nth_error_last.
    cbn [pending ui calls] in E3.
    rewrite firstn_last, skipn_last, app_nil_r in E3.
    destruct (resume_forecast_outcome host name country r2
                (setError "" (setLoading true (ui a)))) as [R3|(w & R3)];
      rewrite R3 in E3; subst a3; cbn [pending ui].
    + repeat split. right; split; reflexivity.
    + repeat split. left; exists w; split; reflexivity.
Qed.

Lemma C8_resubmission_after_failure_witness :
  let a := run inert_host [Change "Atlantis"; Click; Settle 0 NetworkError;
                           Change "Paris"] init in
  let a1 := step inert_host a (KeyPress "Enter") in
  let a2 := step inert_host a1 (Settle 0 (Json paris_geocoding)) in
  let a3 := step inert_host a2 (Settle 0 (Json sample_forecast)) in
  let b := step inert_host a (Change unpaired_surrogate_query) in
  lookupState (ui a) = Failure failure_message /\
  (error (ui a1) = "" /\ lookupState (ui a1) = Loading) /\
  lookupState (ui a2) = Loading /\
  lookupState (ui a3) = Success sample_weather /\
  step inert_host b Click =
    {| ui := failed (ui b); pending := pending b; calls := calls b |}.
Proof.
  intros a a1 a2 a3 b.
  pose proof (C8_resubmission_after_failure inert_host a (KeyPress "Enter")
                failure_message eq_refl eq_refl eq_refl) as [_ G].
  destruct (G eq_refl) as [(H1 & H2 & _) _].
  pose proof (C8_resubmission_after_failure inert_host b Click
                failure_message eq_refl eq_refl eq_refl) as [B _].
  destruct (B eq_refl) as [B1 _].
  refine (conj eq_refl (conj (conj H1 H2) (conj eq_refl (conj eq_refl B1)))).
Defined.

(** *** Overlapping lookups *)

Lemma single_flight_step host (a : App) (e : event) :
  match e with KeyPress _ => False | _ => True end ->
  single_flight a -> single_flight (step host a e).
Proof.
  intros He I; destruct e as [v| |key|i r]; simpl; try contradiction.
  - exact I.
  - destruct I as [[P L]|(t & P & L)]; rewrite L.
    + destruct (fetchWeather_cases a) as [E|[E|E]]; rewrite E.
      * left; auto.
      * left; auto.
      * right; exists AwaitGeocode; cbn [pending ui]; rewrite P; auto.
    + right; exists t; auto.
  - unfold settle.
    destruct I as [[P L]|(t & P & L)]; rewrite P.
    + destruct i; simpl; left; auto.
    + destruct i as [|i]; simpl; [|destruct i; right; exists t; auto].
      destruct (resume_outcome host t r (ui a))
        as [R|[(w & R)|(name & country & req & _ & R)]]; rewrite R.
      * left; auto.
      * left; auto.
      * right; exists (AwaitForecast name country); auto.
Qed.

(** X8. With the button as the only way to submit, lookups never overlap. *)
Lemma button_only_single_flight host (es : list event) :
  Forall (fun e => match e with KeyPress _ => False | _ => True end) es ->
  single_flight (run host es init).
Proof.
  intros H.
  assert (G : forall a, single_flight a -> single_flight (run host es a)).
  { induction H as [|e es He _ IH]; intros a I; [exact I|].
    simpl; apply IH; now apply single_flight_step. }
  apply G; left; auto.
Qed.

(** C3, where the code departs from it. While a lookup is loading and the
    query is one a lookup can be started for (not blank, and well-formed
    so that its URL can be built), a click does nothing (the button is
    disabled), but the Enter key reaches [fetchWeather], which does not
    look at the loading flag: a second lookup is pending and a second
    geocoding call is issued. *)
Theorem C3_enter_starts_overlapping_lookup host (a : App) :
  loading (ui a) = true ->
  whitespace_only (city (ui a)) = false ->
  well_formed (city (ui a)) = true ->
  step host a Click = a /\
  pending (step host a (KeyPress "Enter")) = (pending a ++ [AwaitGeocode])%list /\
  calls (step host a (KeyPress "Enter")) = (calls a ++ [Geocode (city (ui a))])%list.
Proof.
  intros L W F; simpl; rewrite L.
  unfold handleKeyPress; simpl.
  rewrite (fetchWeather_starts a W F); auto.
Qed.

Lemma C3_enter_starts_overlapping_lookup_witness :
  let a := run inert_host [Change "Paris"; Click] init in
  (pending a = [AwaitGeocode] /\ calls a = [Geocode "Paris"]) /\
  step inert_host a Click = a /\
  pending (step inert_host a (KeyPress "Enter")) = [AwaitGeocode; AwaitGeocode] /\
  calls (step inert_host a (KeyPress "Enter")) = [Geocode "Paris"; Geocode "Paris"].
Proof.
  intros a.
  exact (conj (conj eq_refl eq_refl)
              (C3_enter_starts_overlapping_lookup inert_host a
                 eq_refl eq_refl eq_refl)).
Defined.

(** *** Renderings *)

Lemma painted_renderable (u : State) :
  painted u = if renderable u then Some (WeatherApp u) else None.
Proof.
  unfold painted, renderable, stored_children, WeatherApp; cbn.
  destruct (weather u) as [w|]; cbn; [|reflexivity].
  destruct (valid_child (WeatherData.city w)),
           (valid_child (WeatherData.country w)),
           (valid_child (WeatherData.humidity w)); reflexivity.
Qed.

(** After a successful lookup, a second submission keeps the card on
    screen next to the loading marker. *)
Lemma C4_card_and_loading_marker_together :
  let a := run inert_host (successful_lookup ++ [Click]) init in
  lookupState (ui a) = Loading /\
  shows_weather_card (painted (ui a)) = true /\
  shows_loading_indicator (painted (ui a)) = true /\
  renderings_shown (painted (ui a)) = 2%nat /\
  lookupState (ui (run inert_host [Change "Paris"; Click] init)) = Loading /\
  shows_weather_card (painted (ui (run inert_host [Change "Paris"; Click] init)))
  = false.
Proof. repeat split. Qed.

(** C4, as the code has it. What is on screen depends on the stored weather
    and the loading flag.  When the stored city, country and humidity are
    values React can render (always so when no weather is stored), the
    empty-state prompt is shown exactly when there is neither a stored
    weather nor a lookup loading, the loading marker exactly while loading,
    the card exactly when a weather is stored.  So at least one of the three
    is shown, the prompt never with another, and the card and the loading
    marker together exactly when a lookup is loading over a stored weather.
    Per lookup state: Idle shows the prompt alone and no message; Failure
    the prompt with the message and no card; Success the card alone;
    Loading the loading marker, and the card too if a weather is stored.
    When one of the three stored values is or holds a plain object,
    rendering throws and none of the renderings is shown. *)
Theorem C4_renderings (u : State) :
  let p := painted u in
  (weather u = None -> renderable u = true) /\
  (renderable u = true ->
   p = Some (WeatherApp u) /\
   (shows_empty_state p = negb (isSome (weather u)) && negb (loading u) /\
    shows_loading_indicator p = loading u /\
    shows_weather_card p = isSome (weather u) /\
    shows_error p = (if (error u =? "")%string then None else Some (error u))) /\
   renderings_shown p = (if isSome (weather u) && loading u then 2 else 1)%nat /\
   (lookupState u = Idle ->
    shows_empty_state p = true /\ renderings_shown p = 1%nat /\
    shows_error p = None) /\
   (forall m, lookupState u = Failure m ->
    shows_empty_state p = true /\ renderings_shown p = 1%nat /\
    shows_error p = Some m) /\
   (forall w, lookupState u = Success w ->
    shows_weather_card p = true /\ renderings_shown p = 1%nat) /\
   (lookupState u = Loading ->
    shows_loading_indicator p = true /\ shows_empty_state p = false /\
    shows_weather_card p = isSome (weather u))) /\
  (renderable u = false ->
   p = None /\ renderings_shown p = 0%nat /\ shows_error p = None /\
   weather u <> None).
Proof.
  intros p; unfold p; rewrite painted_renderable.
  split; [|split]; [intros N; unfold renderable; now rewrite N| |];
    intros R; rewrite R.
  - split; [reflexivity|]. clear R p.
    destruct u as [c w l e].
    unfold lookupState, renderings_shown, shows_empty_state,
      shows_loading_indicator, shows_weather_card, shows_error, WeatherApp,
      ToBoolean.
    cbn [city weather loading error empty_state button_disabled weather_card
         error_text].
    refine (conj _ (conj _ (conj _ (conj _ (conj _ _))))).
    + refine (conj eq_refl (conj eq_refl (conj _ _))).
      * now destruct w.
      * now destruct (e =? "")%string.
    + now destruct w, l.
    + destruct l; [discriminate|]; destruct w; [discriminate|].
      destruct (e =? "")%string; [auto|discriminate].
    + intros m; destruct l; [discriminate|]; destruct w; [discriminate|].
      destruct (e =? "")%string; [discriminate|].
      intros [= <-]; auto.
    + intros w'; destruct l; [discriminate|]; destruct w; [auto|].
      destruct (e =? "")%string; discriminate.
    + destruct l; [destruct w; auto|]. destruct w; [discriminate|].
      destruct (e =? "")%string; discriminate.
  - refine (conj eq_refl (conj eq_refl (conj eq_refl _))).
    intros N; unfold renderable in R; rewrite N in R; discriminate.
Qed.

Lemma C4_renderings_witness :
  let idle := ui init in
  let failure := ui (run inert_host [Change "Atlantis"; Click; Settle 0 NetworkError] init) in
  let success := ui (run inert_host successful_lookup init) in
  let reloading := ui (run inert_host (successful_lookup ++ [Click]) init) in
  let broken := ui (run inert_host
                      [Change "Paris"; Click; Settle 0 (Json object_name_geocoding);
                       Settle 0 (Json sample_forecast)] init) in
  (renderings_shown (painted idle) = 1%nat /\
   shows_empty_state (painted idle) = true) /\
  (renderings_shown (painted failure) = 1%nat /\
   shows_empty_state (painted failure) = true /\
   shows_error (painted failure) = Some failure_message) /\
  (renderings_shown (painted success) = 1%nat /\
   shows_weather_card (painted success) = true) /\
  renderings_shown (painted reloading) = 2%nat /\
  (isSome (weather broken) = true /\ renderings_shown (painted broken) = 0%nat).
Proof.
  intros idle failure success reloading broken.
  pose proof (C4_renderings idle) as (_ & I & _).
  pose proof (C4_renderings failure) as (_ & F & _).
  pose proof (C4_renderings success) as (_ & S & _).
  pose proof (C4_renderings reloading) as (_ & R & _).
  pose proof (C4_renderings broken) as (_ & _ & B).
  destruct (I eq_refl) as (_ & _ & _ & I' & _).
  destruct (F eq_refl) as (_ & _ & _ & _ & F' & _).
  destruct (S eq_refl) as (_ & _ & _ & _ & _ & S' & _).
  destruct (R eq_refl) as (_ & _ & R' & _).
  destruct (B eq_refl) as (_ & B' & _).
  destruct (I' eq_refl) as (I1 & I2 & _).
  destruct (F' failure_message eq_refl) as (F1 & F2 & F3).
  destruct (S' sample_weather eq_refl) as (S1 & S2).
  refine (conj (conj I2 I1) (conj (conj F2 (conj F1 F3))
            (conj (conj S2 S1) (conj R' (conj eq_refl B'))))).
Defined.

(** *** Independence from the host

    The sample runs read numbers where numbers are expected, so they come
    out the same under every host. *)
Lemma sample_runs_any_host host :
  classify host (num (-1)) = Some ("Clouds", "Partly cloudy") /\
  run host (successful_lookup ++ [Click]) init =
    run inert_host (successful_lookup ++ [Click]) init /\
  run host [Change "Paris"; Click; Settle 0 (Json paris_geocoding);
            Settle 0 (Json empty_current_forecast)] init =
    run inert_host [Change "Paris"; Click; Settle 0 (Json paris_geocoding);
                    Settle 0 (Json empty_current_forecast)] init.
Proof. refine (conj eq_refl (conj eq_refl eq_refl)). Qed.

(* ================================================================== *)
(** ** Further properties of the component                              *)
(* ================================================================== *)

(** *** The classification on arbitrary values *)

Lemma classify_number host (n : number) :
  classify host (VNumber n) =
  Some (if number_eq n (of_Z 0) then ("Clear", "Clear sky")
        else if number_le n (of_Z 3) then ("Clouds", "Partly cloudy")
        else if number_le n (of_Z 49) then ("Fog", "Foggy")
        else if number_le n (of_Z 69) then ("Rain", "Rainy")
        else if number_le n (of_Z 79) then ("Snow", "Snowy")
        else if number_le n (of_Z 99) then ("Thunderstorm", "Thunderstorm")
        else ("Clear", "Clear sky")).
Proof.
  unfold classify, le, ToNumber, strict_eq_number.
  destruct (number_eq n (of_Z 0)); [reflexivity|].
  repeat match goal with
         | |- context [number_le n ?k] => destruct (number_le n k); [reflexivity|]
         end.
  reflexivity.
Qed.

Lemma number_le_finite (q : Q) (k : Z) :
  number_le (Finite q) (of_Z k) = true <-> (q <= inject_Z k)%Q.
Proof. unfold number_le, of_Z; apply Qle_bool_iff. Qed.

Lemma number_eq_finite_0 (q : Q) :
  number_eq (Finite q) (of_Z 0) = true <-> (q == 0)%Q.
Proof. unfold number_eq, of_Z; apply Qeq_bool_iff. Qed.

Ltac decide_number_tests q :=
  repeat match goal with
         | |- context [number_eq (Finite q) (of_Z 0)] =>
             let E := fresh "E" in
             destruct (number_eq (Finite q) (of_Z 0)) eqn:E;
             [apply number_eq_finite_0 in E
             |assert (~ (q == 0)%Q)
                by (rewrite <- number_eq_finite_0; congruence); clear E]
         | |- context [number_le (Finite q) (of_Z ?k)] =>
             let E := fresh "E" in
             destruct (number_le (Finite q) (of_Z k)) eqn:E;
             [apply number_le_finite in E
             |assert (~ (q <= inject_Z k)%Q)
                by (rewrite <- number_le_finite; congruence); clear E]
         end.

(** X1. The weather code need not be an integer.  On a finite Number the
    branches cut the line at 0, 3, 49, 69, 79 and 99: zero alone is Clear,
    everything else up to 3 (all negative numbers included) is Clouds, then
    Fog up to 49, Rain up to 69, Snow up to 79, Thunderstorm up to 99, and
    Clear again above.  [NaN] and [+Infinity] fail every test and stay
    Clear; [-Infinity] is Clouds. *)
Theorem classify_by_intervals host (q : Q) :
  ((q == 0)%Q -> classify host (num q) = Some ("Clear", "Clear sky")) /\
  ((q < 0 \/ 0 < q <= 3)%Q ->
   classify host (num q) = Some ("Clouds", "Partly cloudy")) /\
  ((3 < q <= 49)%Q -> classify host (num q) = Some ("Fog", "Foggy")) /\
  ((49 < q <= 69)%Q -> classify host (num q) = Some ("Rain", "Rainy")) /\
  ((69 < q <= 79)%Q -> classify host (num q) = Some ("Snow", "Snowy")) /\
  ((79 < q <= 99)%Q ->
   classify host (num q) = Some ("Thunderstorm", "Thunderstorm")) /\
  ((99 < q)%Q -> classify host (num q) = Some ("Clear", "Clear sky")) /\
  classify host (VNumber NaN) = Some ("Clear", "Clear sky") /\
  classify host (VNumber (Infinity false)) = Some ("Clear", "Clear sky") /\
  classify host (VNumber (Infinity true)) = Some ("Clouds", "Partly cloudy").
Proof.
  unfold num; rewrite (classify_number host (Finite q)).
  refine (conj _ (conj _ (conj _ (conj _ (conj _ (conj _ (conj _
          (conj eq_refl (conj eq_refl eq_refl))))))))); intros Hq;
    decide_number_tests q; unfold inject_Z in *;
    first [reflexivity | exfalso; lra].
Qed.

Lemma classify_by_intervals_witness :
  classify inert_host (num (1 # 2)) = Some ("Clouds", "Partly cloudy") /\
  classify inert_host (num (7 # 2)) = Some ("Fog", "Foggy") /\
  classify inert_host (num (991 # 10)) = Some ("Clear", "Clear sky").
Proof.
  pose proof (classify_by_intervals inert_host (1 # 2)) as (_ & A & _).
  pose proof (classify_by_intervals inert_host (7 # 2)) as (_ & _ & B & _).
  pose proof (classify_by_intervals inert_host (991 # 10)) as (_ & _ & _ & _ & _ & _ & C & _).
  refine (conj (A _) (conj (B _) (C _))).
  - right; split; [reflexivity|discriminate].
  - split; [reflexivity|discriminate].
  - reflexivity.
Defined.

Lemma classify_of_number host (v : jsval) (n : number) :
  ToNumber host v = Some n ->
  exists p, classify host v = Some p /\
            In (fst p, snd p, component (getWeatherIcon (fst p))) category_table.
Proof.
  intros H; unfold classify, le; rewrite H.
  destruct (strict_eq_number v (of_Z 0)); [eexists; split; [reflexivity|simpl; tauto]|].
  repeat match goal with
         | |- context [number_le n ?k] =>
             destruct (number_le n k);
             [eexists; split; [reflexivity|simpl; tauto]|]
         end.
  eexists; split; [reflexivity|simpl; tauto].
Qed.

(** X2. The classification throws exactly when the conversion of the weather
    code to a Number throws, which only an array or object can cause; on
    every other value, a missing or null code included, it yields one of
    the six pairs of condition and description, and [getWeatherIcon] then
    picks the icon that belongs to it. *)
Theorem classify_total_on_convertible host (v : jsval) :
  (classify host v = None <-> ToNumber host v = None) /\
  (is_primitive v = true -> ToNumber host v <> None) /\
  (forall cond desc,
     classify host v = Some (cond, desc) ->
     In (cond, desc, component (getWeatherIcon cond)) category_table).
Proof.
  split; [|split].
  - destruct (ToNumber host v) as [n|] eqn:N.
    + destruct (classify_of_number host v n N) as (p & -> & _).
      split; discriminate.
    + split; [reflexivity|intros _].
      unfold classify, le; rewrite N.
      destruct v; try discriminate; reflexivity.
  - destruct v; simpl; intros; discriminate.
  - intros cond desc C.
    destruct (ToNumber host v) as [n|] eqn:N.
    + destruct (classify_of_number host v n N) as (p & E & I).
      rewrite E in C; injection C as ->; exact I.
    + unfold classify, le in C; rewrite N in C.
      destruct v; try discriminate.
Qed.

Lemma classify_total_on_convertible_witness :
  classify inert_host VUndefined = Some ("Clear", "Clear sky") /\
  classify inert_host VNull = Some ("Clouds", "Partly cloudy") /\
  classify inert_host (VObject [("toString", VNull)]) = None /\
  In ("Clouds", "Partly cloudy", component (getWeatherIcon "Clouds")) category_table.
Proof.
  pose proof (classify_total_on_convertible inert_host VNull) as (_ & _ & I).
  pose proof (classify_total_on_convertible inert_host (VObject [("toString", VNull)]))
    as ([_ T] & _ & _).
  refine (conj eq_refl (conj eq_refl (conj (T eq_refl) (I _ _ eq_refl)))).
Defined.

(** *** What the two bodies are asked for *)

Lemma get_not_nullish (v : jsval) (k : string) :
  is_nullish v = false -> exists x, get v k = Some x.
Proof. destruct v; simpl; intros; try discriminate; eauto. Qed.

(** X3. Of a geocoding body with a non-empty [results] array only the first
    element is read: its [name] and [country] are kept for the card and its
    [latitude] and [longitude] go into the forecast call, provided both can
    be written into the URL.  The other matches play no part. *)
Theorem after_geocode_first_match host
    (geoData first latitude longitude name country : jsval)
    (rest : list jsval) (lat lon : string) :
  get geoData "results" = Some (VArray (first :: rest)) ->
  get first "latitude" = Some latitude ->
  get first "longitude" = Some longitude ->
  get first "name" = Some name ->
  get first "country" = Some country ->
  ToString host latitude = Some lat ->
  ToString host longitude = Some lon ->
  after_geocode host geoData = Some (name, country, Forecast latitude longitude).
Proof.
  intros R La Lo Na Co SLa SLo.
  unfold after_geocode; rewrite R.
  cbn [ToBoolean negb get get_index nth].
  change ("length" =? "length")%string with true; cbn iota.
  assert (Z : strict_eq_number
                (VNumber (of_nat (List.length (first :: rest)))) (of_Z 0) = false).
  { unfold strict_eq_number, of_nat; rewrite number_eq_of_Z.
    apply Z.eqb_neq; simpl List.length; lia. }
  rewrite Z, La, Lo, Na, Co, SLa, SLo.
  reflexivity.
Qed.

Lemma after_geocode_first_match_witness :
  after_geocode inert_host
    (VObject [("results",
               VArray [VObject [("name", VString "Paris");
                                ("latitude", num (4885341 # 100000));
                                ("longitude", num (23488 # 10000));
                                ("country", VString "France")];
                       VObject [("name", VString "Paris");
                                ("latitude", num (3366 # 100));
                                ("longitude", num (-9555 # 100));
                                ("country", VString "United States")]])]) =
  Some (VString "Paris", VString "France",
        Forecast (num (4885341 # 100000)) (num (23488 # 10000))).
Proof.
  eapply (after_geocode_first_match inert_host); reflexivity.
Defined.

Lemma Math_round_primitive host (v : jsval) :
  is_primitive v = true -> exists n, Math_round host v = Some n.
Proof. destruct v; simpl; intros; try discriminate; unfold Math_round; simpl; eauto. Qed.

Lemma classify_primitive host (v : jsval) :
  is_primitive v = true -> exists p, classify host v = Some p.
Proof.
  intros P.
  destruct (ToNumber host v) as [n|] eqn:N.
  - destruct (classify_of_number host v n N) as (p & E & _); eauto.
  - destruct v; discriminate.
Qed.

(** X4. The forecast body is not validated.  Once [current] is neither missing
    nor null, the lookup stores a weather whenever the weather code, the two
    temperatures and the wind speed are not arrays or objects (missing
    fields, nulls, strings and booleans all pass), and the humidity is
    stored as it comes, whatever it is. *)
Theorem after_forecast_accepts_primitives host
    (name country weatherData current code t f w h : jsval) :
  get weatherData "current" = Some current ->
  get current "weather_code" = Some code ->
  get current "temperature_2m" = Some t ->
  get current "apparent_temperature" = Some f ->
  get current "wind_speed_10m" = Some w ->
  get current "relative_humidity_2m" = Some h ->
  is_primitive code = true ->
  is_primitive t = true ->
  is_primitive f = true ->
  is_primitive w = true ->
  exists data,
    after_forecast host name country weatherData = Some data /\
    WeatherData.city data = name /\
    WeatherData.country data = country /\
    WeatherData.humidity data = h /\
    Math_round host t = Some (WeatherData.temperature data) /\
    Math_round host f = Some (WeatherData.feelsLike data) /\
    Math_round host w = Some (WeatherData.windSpeed data) /\
    classify host code =
      Some (WeatherData.condition data, WeatherData.description data).
Proof.
  intros Hc Hcode Ht Hf Hw Hh Pc Pt Pf Pw.
  destruct (classify_primitive host code Pc) as ([cond desc] & C).
  destruct (Math_round_primitive host t Pt) as (T & RT).
  destruct (Math_round_primitive host f Pf) as (F & RF).
  destruct (Math_round_primitive host w Pw) as (W & RW).
  unfold after_forecast.
  rewrite Hc, Hcode, C, Ht, RT, Hf, RF, Hh, Hw, RW.
  eexists; split; [reflexivity|]. cbn. auto 10.
Qed.

Lemma after_forecast_accepts_primitives_witness :
  after_forecast inert_host (VString "Paris") (VString "France")
    (VObject [("current",
               VObject [("temperature_2m", VNull);
                        ("relative_humidity_2m", VArray [VBool true]);
                        ("weather_code", VBool true)])]) =
  Some {| WeatherData.city := VString "Paris";
          WeatherData.country := VString "France";
          WeatherData.temperature := of_Z 0;
          WeatherData.feelsLike := NaN;
          WeatherData.humidity := VArray [VBool true];
          WeatherData.windSpeed := NaN;
          WeatherData.condition := "Clouds";
          WeatherData.description := "Partly cloudy" |}.
Proof.
  destruct (after_forecast_accepts_primitives inert_host
              (VString "Paris") (VString "France")
              (VObject [("current",
                         VObject [("temperature_2m", VNull);
                                  ("relative_humidity_2m", VArray [VBool true]);
                                  ("weather_code", VBool true)])])
              (VObject [("temperature_2m", VNull);
                        ("relative_humidity_2m", VArray [VBool true]);
                        ("weather_code", VBool true)])
              (VBool true) VNull VUndefined VUndefined (VArray [VBool true])
              eq_refl eq_refl eq_refl eq_refl eq_refl eq_refl
              eq_refl eq_refl eq_refl eq_refl)
    as (data & E & Ci & Co & Hu & T & F & W & C).
  rewrite E; destruct data; cbn in *.
  injection T as <-; injection F as <-; injection W as <-; injection C as <- <-.
  now subst.
Defined.

(** *** Invariants of the running application *)

Lemma pending_split {A} (l : list A) (i : nat) (t : A) :
  nth_error l i = Some t ->
  l = (firstn i l ++ t :: skipn (S i) l)%list.
Proof.
  revert i; induction l as [|x l IH]; intros [|i] H; simpl in *; try discriminate.
  - now injection H as ->.
  - f_equal; now apply IH.
Qed.

Lemma count_app {A} (f : A -> bool) (l1 l2 : list A) :
  count f (l1 ++ l2) = (count f l1 + count f l2)%nat.
Proof. unfold count; now rewrite filter_app, length_app. Qed.

Lemma count_cons {A} (f : A -> bool) (x : A) (l : list A) :
  count f (x :: l) = ((if f x then 1 else 0) + count f l)%nat.
Proof. unfold count; simpl; now destruct (f x). Qed.

Lemma classify_in_table host (v : jsval) (p : string * string) :
  classify host v = Some p ->
  In (fst p, snd p, component (getWeatherIcon (fst p))) category_table.
Proof.
  intros C.
  destruct (ToNumber host v) as [n|] eqn:N.
  - destruct (classify_of_number host v n N) as (p' & E & I).
    rewrite E in C; now injection C as <-.
  - unfold classify, le in C; rewrite N in C.
    destruct v; discriminate.
Qed.

Lemma after_forecast_classified host (name country weatherData : jsval)
    (w : WeatherData.t) :
  after_forecast host name country weatherData = Some w ->
  In (WeatherData.condition w, WeatherData.description w,
      component (getWeatherIcon (WeatherData.condition w))) category_table.
Proof.
  unfold after_forecast; intros H.
  destruct (get weatherData "current") as [current|]; [|discriminate].
  destruct (get current "weather_code") as [code|]; [|discriminate].
  destruct (classify host code) as [cd|] eqn:C; [|discriminate].
  repeat match type of H with
         | match ?x with _ => _ end = _ => destruct x; [|discriminate]
         end.
  injection H as <-; cbn.
  now apply (classify_in_table host code).
Qed.

(** The three ways a completion can go, on the whole application. *)
Lemma settle_outcome host (a : App) (i : nat) (t : task) (r : fetch_result) :
  nth_error (pending a) i = Some t ->
  settle host i r a =
    {| ui := failed (ui a);
       pending := firstn i (pending a) ++ skipn (S i) (pending a);
       calls := calls a |} \/
  (exists name country weatherData w,
     t = AwaitForecast name country /\
     after_forecast host name country weatherData = Some w /\
     settle host i r a =
       {| ui := on_finally (setWeather (Some w) (ui a));
          pending := firstn i (pending a) ++ skipn (S i) (pending a);
          calls := calls a |}) \/
  (exists name country latitude longitude,
     t = AwaitGeocode /\
     settle host i r a =
       {| ui := ui a;
          pending := firstn i (pending a)
                     ++ AwaitForecast name country :: skipn (S i) (pending a);
          calls := calls a ++ [Forecast latitude longitude] |}).
Proof.
  intros Hn; rewrite (settle_at host i r a t Hn).
  destruct t as [|name country]; simpl.
  - destruct (json r) as [geoData|]; [|now left].
    destruct (after_geocode host geoData) as [[[n c] q]|] eqn:G; [|now left].
    apply after_geocode_request in G
      as (_ & _ & latitude & longitude & _ & _ & _ & _ & _ & _ & ->).
    right; right; now exists n, c, latitude, longitude.
  - destruct (json r) as [weatherData|]; [|now left].
    destruct (after_forecast host name country weatherData) as [w|] eqn:F;
      [|now left].
    right; left; now exists name, country, weatherData, w.
Qed.

Lemma message_and_loading_agree_step host (a : App) (e : event) :
  message_and_loading_agree a -> message_and_loading_agree (step host a e).
Proof.
  intros I.
  assert (FW : message_and_loading_agree (fetchWeather a)).
  { destruct (fetchWeather_cases a) as [E|[E|E]]; rewrite E; [exact I| |].
    - split; cbn; [now right|discriminate].
    - split; cbn; [now left|]. intros _; split; [reflexivity|].
      now destruct (pending a). }
  destruct e as [v| |key|i r]; simpl.
  - exact I.
  - destruct (loading (ui a)); [exact I|exact FW].
  - unfold handleKeyPress; destruct (key =? "Enter")%string; [exact FW|exact I].
  - destruct (nth_error (pending a) i) as [t|] eqn:Hn;
      [|unfold settle; rewrite Hn; exact I].
    destruct I as [M L].
    destruct (settle_outcome host a i t r Hn)
      as [E|[(n & c & wd & w & _ & _ & E)|(n & c & la & lo & _ & E)]];
      rewrite E; split; cbn; try discriminate; auto.
    intros Lt; destruct (L Lt) as [Er _]; split; [exact Er|].
    now destruct (firstn i (pending a)).
Qed.

(** X5. The message shown is either empty or the one fixed text, and while the
    loading flag is set no message is shown and a lookup is pending: the
    loading marker is never left on with nothing in flight. *)
Theorem run_message_and_loading_agree host (es : list event) :
  message_and_loading_agree (run host es init).
Proof.
  unfold run.
  assert (G : forall a, message_and_loading_agree a ->
                        message_and_loading_agree (fold_left (step host) es a)).
  { induction es as [|e es IH]; intros a I; [exact I|].
    simpl; apply IH, message_and_loading_agree_step, I. }
  apply G; split; cbn; [now left|discriminate].
Qed.

(** X6. Network calls are accounted for.  In every state the application goes
    through, each lookup waiting for its geocoding call and each forecast
    call issued so far has a geocoding call of its own in the log, and each
    lookup waiting for its forecast call has that call in the log: a
    forecast call is never issued without a geocoding call before it, and a
    lookup issues at most two calls. *)
Theorem run_calls_accounted host (es : list event) :
  calls_accounted (run host es init).
Proof.
  assert (S : forall a e, calls_accounted a -> calls_accounted (step host a e)).
  { intros a e I.
    assert (FW : calls_accounted (fetchWeather a)).
    { destruct (fetchWeather_cases a) as [E|[E|E]]; rewrite E;
        [exact I|exact I|].
      destruct I as [G F].
      split; cbn [pending calls]; rewrite !count_app; cbn; lia. }
    destruct e as [v| |key|i r]; simpl.
    - exact I.
    - destruct (loading (ui a)); [exact I|exact FW].
    - unfold handleKeyPress; destruct (key =? "Enter")%string; [exact FW|exact I].
    - destruct (nth_error (pending a) i) as [t|] eqn:Hn;
        [|unfold settle; rewrite Hn; exact I].
      destruct I as [G F].
      pose proof (pending_split _ _ _ Hn) as P.
      rewrite P in G, F; rewrite !count_app, !count_cons in G, F.
      destruct (settle_outcome host a i t r Hn)
        as [E|[(n & c & wd & w & _ & _ & E)|(n & c & la & lo & -> & E)]];
        rewrite E; split; cbn [pending calls];
        rewrite ?count_app, ?count_cons; cbn in *; lia. }
  unfold run.
  assert (G : forall a, calls_accounted a ->
                        calls_accounted (fold_left (step host) es a)).
  { induction es as [|e es IH]; intros a I; [exact I|]. simpl; apply IH, S, I. }
  apply G; split; cbn; lia.
Qed.

(** X7. Whatever the two services return, a stored weather always carries one
    of the six pairs of condition and description the chain assigns, and
    the icon of the card is the one that belongs to it: the "drizzle",
    "mist" and "haze" cases and the default of [getWeatherIcon] are never
    taken for a stored weather. *)
Theorem run_stored_weather_classified host (es : list event) :
  stored_weather_classified (ui (run host es init)).
Proof.
  assert (S : forall a e, stored_weather_classified (ui a) ->
                          stored_weather_classified (ui (step host a e))).
  { intros a e I.
    assert (FW : stored_weather_classified (ui (fetchWeather a))).
    { destruct (fetchWeather_cases a) as [E|[E|E]]; rewrite E;
        [exact I|exact Logic.I|exact I]. }
    destruct e as [v| |key|i r]; simpl.
    - exact I.
    - destruct (loading (ui a)); [exact I|exact FW].
    - unfold handleKeyPress; destruct (key =? "Enter")%string; [exact FW|exact I].
    - destruct (nth_error (pending a) i) as [t|] eqn:Hn;
        [|unfold settle; rewrite Hn; exact I].
      destruct (settle_outcome host a i t r Hn)
        as [E|[(n & c & wd & w & _ & A & E)|(n & c & la & lo & _ & E)]];
        rewrite E; cbn [ui].
      + exact Logic.I.
      + exact (after_forecast_classified host n c wd w A).
      + exact I. }
  unfold run.
  assert (G : forall a, stored_weather_classified (ui a) ->
                        stored_weather_classified (ui (fold_left (step host) es a))).
  { induction es as [|e es IH]; intros a I; [exact I|]. simpl; apply IH, S, I. }
  apply G; exact I.
Qed.

Lemma button_only_single_flight_witness :
  single_flight (run inert_host (successful_lookup ++ [Click; Click]) init).
Proof.
  apply (button_only_single_flight inert_host).
  repeat constructor.
Defined.

Lemma button_only_step host (a : App) (e : event) :
  match e with KeyPress _ => False | _ => True end ->
  single_flight a /\ message_and_loading_agree a /\
  (error (ui a) = "" \/ weather (ui a) = None) ->
  single_flight (step host a e) /\ message_and_loading_agree (step host a e) /\
  (error (ui (step host a e)) = "" \/ weather (ui (step host a e)) = None).
Proof.
  intros He (SF & ML & X).
  split; [now apply single_flight_step|].
  split; [now apply message_and_loading_agree_step|].
  destruct e as [v| |key|i r]; simpl; try contradiction.
  - exact X.
  - destruct (loading (ui a)); [exact X|].
    destruct (fetchWeather_cases a) as [E|[E|E]]; rewrite E;
      [exact X|now right|now left].
  - destruct (nth_error (pending a) i) as [t|] eqn:Hn;
      [|unfold settle; rewrite Hn; exact X].
    destruct (settle_outcome host a i t r Hn)
      as [E|[(n & c & wd & w & _ & _ & E)|(n & c & la & lo & _ & E)]];
      rewrite E; cbn [ui].
    + now right.
    + left; cbn.
      destruct SF as [[P _]|(t' & _ & L)]; [rewrite P in Hn; now destruct i|].
      now apply ML.
    + exact X.
Qed.

(** X9. With the button as the only way to submit, the error message and the
    weather card are never on screen together: a stored weather always
    comes with an empty message. *)
Theorem button_only_message_or_card host (es : list event) :
  Forall (fun e => match e with KeyPress _ => False | _ => True end) es ->
  (error (ui (run host es init)) = "" \/ weather (ui (run host es init)) = None) /\
  (error_text (WeatherApp (ui (run host es init))) = None \/
   weather_card (WeatherApp (ui (run host es init))) = None).
Proof.
  intros H.
  assert (G : forall a,
             single_flight a /\ message_and_loading_agree a /\
             (error (ui a) = "" \/ weather (ui a) = None) ->
             error (ui (run host es a)) = "" \/ weather (ui (run host es a)) = None).
  { induction H as [|e es He _ IH]; intros a I; [apply I|].
    simpl; apply IH; now apply button_only_step. }
  assert (X : error (ui (run host es init)) = ""
              \/ weather (ui (run host es init)) = None).
  { apply G; split; [left; auto|]. split; [|now left].
    split; cbn; [now left|discriminate]. }
  split; [exact X|].
  destruct X as [X|X]; [left|right]; cbn; now rewrite X.
Qed.

Lemma button_only_message_or_card_witness :
  let es := (successful_lookup
             ++ [Change "Atlantis"; Click; Settle 0 (Json (VObject []))])%list in
  (error (ui (run inert_host es init)) = ""
   \/ weather (ui (run inert_host es init)) = None) /\
  (error_text (WeatherApp (ui (run inert_host es init))) = None \/
   weather_card (WeatherApp (ui (run inert_host es init))) = None).
Proof.
  intros es.
  apply (button_only_message_or_card inert_host es).
  repeat constructor.
Defined.

(** With the Enter key the two do meet: of two overlapping lookups the
    first fails and the second then succeeds. *)
Example overlap_shows_message_and_card :
  let u := ui (run inert_host
                 (two_lookups_in_flight
                  ++ [Settle 0 NetworkError; Settle 0 (Json sample_forecast)]) init) in
  shows_error (painted u) = Some failure_message /\
  shows_weather_card (painted u) = true.
Proof. split; reflexivity. Qed.

(** *** Lookups in flight *)



(** X11. The loading flag is one boolean, not a count.  When a lookup completes,
    by its forecast call returning or by either call failing in the network
    or not being JSON, the flag is cleared and the button enabled again even
    if other lookups are still pending; those stay in the list untouched. *)
Theorem completion_clears_loading host (a : App) (i : nat) (t : task)
    (r : fetch_result) :
  nth_error (pending a) i = Some t ->
  awaits_forecast t = true \/ json r = None ->
  loading (ui (step host a (Settle i r))) = false /\
  button_disabled (WeatherApp (ui (step host a (Settle i r)))) = false /\
  pending (step host a (Settle i r)) =
    (firstn i (pending a) ++ skipn (S i) (pending a))%list /\
  calls (step host a (Settle i r)) = calls a.
Proof.
  intros Hn C; cbn [step].
  destruct (settle_outcome host a i t r Hn)
    as [E|[(n & c & wd & w & _ & _ & E)|(n & c & la & lo & -> & E)]].
  - rewrite E; repeat split.
  - rewrite E; repeat split.
  - exfalso; destruct C as [C|C]; [discriminate|].
    rewrite (settle_at host i r a AwaitGeocode Hn) in E.
    simpl in E; rewrite C in E; cbn in E.
    apply (f_equal calls) in E; cbn in E.
    apply (f_equal (@List.length request)) in E.
    rewrite length_app in E; cbn in E; lia.
Qed.

Lemma completion_clears_loading_witness :
  let a := run inert_host two_lookups_in_flight init in
  let a' := step inert_host a (Settle 0 (Json sample_forecast)) in
  pending a = [AwaitForecast (VString "Paris") (VString "France");
               AwaitForecast (VString "Oslo") (VString "Norway")] /\
  loading (ui a) = true /\
  loading (ui a') = false /\
  button_disabled (WeatherApp (ui a')) = false /\
  pending a' = [AwaitForecast (VString "Oslo") (VString "Norway")] /\
  calls a' = calls a.
Proof.
  intros a a'.
  refine (conj eq_refl (conj eq_refl _)).
  exact (completion_clears_loading inert_host a 0%nat
           (AwaitForecast (VString "Paris") (VString "France"))
           (Json sample_forecast) eq_refl (or_introl eq_refl)).
Defined.

(** X12. A lookup started from rest.  With the loading flag clear and a
    non-blank query that is well-formed UTF-16, a submission keeps the
    stored weather, clears the message, sets the loading flag and issues
    the geocoding call for the query as typed.  When that call returns, the
    lookup either fails or issues the forecast call without touching the
    state; when the forecast call returns, it fails or stores the new
    weather.  A failure at either call discards the weather stored before,
    a success replaces it, and in both cases the lookup leaves the list of
    pending lookups as it found it.  With a non-blank query that holds an
    unpaired surrogate the URL cannot be built: the submission issues no
    call, adds no pending lookup, discards the stored weather and shows the
    failure message at once. *)
Theorem lookup_from_rest host (a : App) (e : event) :
  loading (ui a) = false ->
  whitespace_only (city (ui a)) = false ->
  is_submission e = true ->
  let n := List.length (pending a) in
  let a1 := step host a e in
  (well_formed (city (ui a)) = false ->
   a1 = {| ui := failed (ui a); pending := pending a; calls := calls a |}) /\
  (well_formed (city (ui a)) = true ->
   (ui a1 = {| city := city (ui a); weather := weather (ui a);
               loading := true; error := "" |} /\
    pending a1 = (pending a ++ [AwaitGeocode])%list /\
    calls a1 = (calls a ++ [Geocode (city (ui a))])%list) /\
   forall r1,
     let a2 := step host a1 (Settle n r1) in
     (ui a2 = failed (ui a) /\ pending a2 = pending a /\ calls a2 = calls a1) \/
     (exists name country latitude longitude,
        ui a2 = ui a1 /\
        pending a2 = (pending a ++ [AwaitForecast name country])%list /\
        calls a2 = (calls a1 ++ [Forecast latitude longitude])%list /\
        forall r2,
          let a3 := step host a2 (Settle n r2) in
          pending a3 = pending a /\
          calls a3 = calls a2 /\
          (ui a3 = failed (ui a) \/
           exists w, ui a3 = {| city := city (ui a); weather := Some w;
                                loading := false; error := "" |}))).
Proof.
  intros L W S n a1.
  split; intros F.
  { unfold a1; rewrite (submission_step host a e S L).
    now apply fetchWeather_throws. }
  assert (E1 : a1 = {| ui := setError "" (setLoading true (ui a));
                       pending := pending a ++ [AwaitGeocode];
                       calls := calls a ++ [Geocode (city (ui a))] |}).
  { unfold a1; rewrite (submission_step host a e S L).
    now apply fetchWeather_starts. }
  clearbody a1; subst a1 n.
  split; [repeat split|].
  intros r1 a2; subst a2; cbn [step].
  match goal with
  | |- context [settle host ?k r1 ?x] =>
      destruct (settle_outcome host x k AwaitGeocode r1 (nth_error_last _ _))
        as [E|[(nm & c & wd & w & D & _)|(nm & c & la & lo & _ & E)]]
  end; [| discriminate |]; rewrite E; cbn [pending ui calls];
    rewrite firstn_last, skipn_last.
  - left; rewrite app_nil_r; repeat split.
  - right; exists nm, c, la, lo.
    split; [reflexivity|]. split; [reflexivity|]. split; [reflexivity|].
    intros r2; cbn [step].
    match goal with
    | |- context [settle host ?k r2 ?x] =>
        destruct (settle_outcome host x k (AwaitForecast nm c) r2 (nth_error_last _ _))
          as [E3|[(nm' & c' & wd & w & _ & _ & E3)|(nm' & c' & la' & lo' & D & _)]]
    end; [| | discriminate]; rewrite E3; cbn [pending ui calls];
      rewrite firstn_last, skipn_last, app_nil_r; repeat split.
    + now left.
    + right; now exists w.
Qed.

Lemma lookup_from_rest_witness :
  let a := step inert_host (run inert_host successful_lookup init) (Change "Atlantis") in
  let a1 := step inert_host a Click in
  let a2 := step inert_host a1 (Settle 0 (Json (VObject []))) in
  let b := step inert_host a (Change unpaired_surrogate_query) in
  weather (ui a) = Some sample_weather /\
  (ui a1 = {| city := "Atlantis"; weather := Some sample_weather;
              loading := true; error := "" |} /\
   pending a1 = [AwaitGeocode] /\
   calls a1 = (calls a ++ [Geocode "Atlantis"])%list) /\
  ui a2 = {| city := "Atlantis"; weather := None;
             loading := false; error := failure_message |} /\
  step inert_host b (KeyPress "Enter") =
    {| ui := failed (ui b); pending := pending b; calls := calls b |}.
Proof.
  intros a a1 a2 b.
  pose proof (lookup_from_rest inert_host a Click eq_refl eq_refl eq_refl) as [_ G].
  destruct (G eq_refl) as [H1 _].
  pose proof (lookup_from_rest inert_host b (KeyPress "Enter")
                eq_refl eq_refl eq_refl) as [B _].
  exact (conj eq_refl (conj H1 (conj eq_refl (B eq_refl)))).
Defined.
